(** * FMS Log Nexus Python SDK: a shallow embedding of the model, error and
    transport layers ([fmslognexus/models.py], [exceptions.py], [client.py]). *)

From Stdlib Require Import ZArith List String Ascii Bool Lia DecimalString.
Import ListNotations.
Open Scope string_scope.
Set Warnings "-register-all".

(** ** Python values

    The values the [json] module decodes a response body into, which are also
    the values the SDK puts into request bodies and query parameters.  JSON
    numbers with a fraction (Python floats) are left out: no code path below
    looks inside a number. *)
Inductive pyval : Type :=
| PNone
| PBool (b : bool)
| PInt (z : Z)
| PStr (s : string)
| PList (l : list pyval)
| PDict (d : list (string * pyval)).

(** A [dict] with string keys, in insertion order. *)
Definition dict := list (string * pyval).

(** Python truthiness: [None], [False], [0], [""], [[]] and [{}] are falsy. *)
Definition truthy (v : pyval) : bool :=
  match v with
  | PNone => false
  | PBool b => b
  | PInt z => negb (Z.eqb z 0)
  | PStr s => negb (String.eqb s "")
  | PList l => match l with [] => false | _ => true end
  | PDict d => match d with [] => false | _ => true end
  end.

(** [k in d], then [d[k]]. *)
Fixpoint lookup (d : dict) (k : string) : option pyval :=
  match d with
  | [] => None
  | (k', v) :: r => if String.eqb k' k then Some v else lookup r k
  end.

(** [d.get(k)] *)
Definition get (d : dict) (k : string) : pyval :=
  match lookup d k with Some v => v | None => PNone end.

(** [d.get(k, dflt)] *)
Definition get_default (d : dict) (k : string) (dflt : pyval) : pyval :=
  match lookup d k with Some v => v | None => dflt end.

(** [del d[k]] for a key that may be absent. *)
Fixpoint dict_del (k : string) (d : dict) : dict :=
  match d with
  | [] => []
  | (k', v) :: r => if String.eqb k' k then dict_del k r else (k', v) :: dict_del k r
  end.

(** An [Optional[str]] argument as the value put into a request. *)
Definition of_opt_str (o : option string) : pyval :=
  match o with Some s => PStr s | None => PNone end.

(** [str(n)] for an [int]. *)
Definition str_of_int (z : Z) : string := NilZero.string_of_int (Z.to_int z).

(** ** Exceptions ([exceptions.py]) *)

Inductive FMSKind : Type :=
| FMSError | AuthenticationError | AuthorizationError | NotFoundError
| ValidationError | ConflictError | RateLimitError | ServerError
| ConnectionError | TimeoutError.

(** The attribute a specialised kind adds to the base error. *)
Inductive fms_extra : Type :=
| NoExtra
| Errors (errors : pyval)
| RetryAfter (retry_after : option Z).

(** An instance of [FMSError] or of one of its subclasses. *)
Record fms_error : Type := mk_fms_error {
  kind : FMSKind;
  message : pyval;
  status_code : option Z;
  response : pyval;
  extra : fms_extra
}.

(** [__init__] of each class, called the way [client.py] calls it. *)
Definition mkFMSError (msg : pyval) (status : option Z) (resp : pyval) : fms_error :=
  mk_fms_error FMSError msg status resp NoExtra.
Definition mkAuthenticationError (msg : pyval) (status : option Z) (resp : pyval) : fms_error :=
  mk_fms_error AuthenticationError msg status resp NoExtra.
Definition mkAuthorizationError (msg : pyval) (status : option Z) (resp : pyval) : fms_error :=
  mk_fms_error AuthorizationError msg status resp NoExtra.
Definition mkNotFoundError (msg : pyval) (status : option Z) (resp : pyval) : fms_error :=
  mk_fms_error NotFoundError msg status resp NoExtra.
(** [self.errors = errors or {}] *)
Definition mkValidationError (msg : pyval) (status : option Z) (resp errors : pyval) : fms_error :=
  mk_fms_error ValidationError msg status resp
    (Errors (if truthy errors then errors else PDict [])).
Definition mkConflictError (msg : pyval) (status : option Z) (resp : pyval) : fms_error :=
  mk_fms_error ConflictError msg status resp NoExtra.
Definition mkRateLimitError (msg : pyval) (status : option Z) (resp : pyval)
    (retry_after : option Z) : fms_error :=
  mk_fms_error RateLimitError msg status resp (RetryAfter retry_after).
Definition mkServerError (msg : pyval) (status : option Z) (resp : pyval) : fms_error :=
  mk_fms_error ServerError msg status resp NoExtra.
(** [ConnectionError(msg)] and [TimeoutError(msg)]: status and response default to [None]. *)
Definition mkConnectionError (msg : string) : fms_error :=
  mk_fms_error ConnectionError (PStr msg) None PNone NoExtra.
Definition mkTimeoutError (msg : string) : fms_error :=
  mk_fms_error TimeoutError (PStr msg) None PNone NoExtra.

(** [if self.status_code:] for an [Optional[int]]. *)
Definition status_set (o : option Z) : bool :=
  match o with Some z => negb (Z.eqb z 0) | None => false end.

(** Everything a call can raise: an error of the SDK's taxonomy, or one of the
    interpreter's and libraries' own exceptions.  [ParserError] is dateutil's
    (a subclass of [ValueError] there); it is kept apart from the
    [ValueError] of an enum lookup, of [int()] and of the JSON decoder.
    [OverflowError] is what the date parser raises on a number too large for
    a date, [RecursionError] what the JSON decoder raises on a body nested
    too deeply for the interpreter's stack. *)
Inductive exn : Type :=
| FMS (e : fms_error)
| ValueError
| ParserError
| TypeError
| KeyError (k : string)
| AttributeError
| OverflowError
| RecursionError.

(** ** The error monad *)

Inductive result (A : Type) : Type :=
| Ok (a : A)
| Raise (e : exn).
Arguments Ok {A} a.
Arguments Raise {A} e.

Definition bind {A B : Type} (m : result A) (f : A -> result B) : result B :=
  match m with
  | Ok a => f a
  | Raise e => Raise e
  end.

Notation "x <- m ;; k" := (bind m (fun x => k))
  (at level 61, m at next level, right associativity).

Definition is_ok {A : Type} (m : result A) : bool :=
  match m with Ok _ => true | Raise _ => false end.

(** [FMSError.__str__], inherited by every kind.  [fmt] is Python's [str()]
    on the values that are not text; a message that is not text cannot be
    returned as it is: the interpreter refuses it with a [TypeError]. *)
Definition __str__ (fmt : pyval -> string) (e : fms_error) : result string :=
  let shown := match message e with PStr s => s | v => fmt v end in
  if status_set (status_code e)
  then Ok ("[" ++ str_of_int (match status_code e with Some z => z | None => 0%Z end)
               ++ "] " ++ shown)
  else match message e with PStr s => Ok s | _ => Raise TypeError end.

(** A list comprehension [[f(x) for x in l]]: left to right, stopping at the
    first exception. *)
Fixpoint map_result {A B : Type} (f : A -> result B) (l : list A) : result (list B) :=
  match l with
  | [] => Ok []
  | x :: r => y <- f x ;; ys <- map_result f r ;; Ok (y :: ys)
  end.

(** The same comprehension for an [f] that acts on a state: each call starts
    from the state the one before left, and an exception leaves the state as
    it was when it was raised. *)
Fixpoint map_st {A B S : Type} (f : A -> S -> result B * S) (l : list A) (s : S)
    : result (list B) * S :=
  match l with
  | [] => (Ok [], s)
  | x :: r =>
      match f x s with
      | (Ok y, s') =>
          match map_st f r s' with
          | (Ok ys, s'') => (Ok (y :: ys), s'')
          | (Raise e, s'') => (Raise e, s'')
          end
      | (Raise e, s') => (Raise e, s')
      end
  end.

(** [data[k]] *)
Definition getitem (d : dict) (k : string) : result pyval :=
  match lookup d k with Some v => Ok v | None => Raise (KeyError k) end.

(** The receiver of a [.get] call must be a [dict]: [None], a [list], a [str]
    and the numbers have no such attribute. *)
Definition as_dict (v : pyval) : result dict :=
  match v with PDict d => Ok d | _ => Raise AttributeError end.

(** ** Timestamps

    A [datetime.datetime]: the calendar fields, and the UTC offset in minutes
    of an aware value ([None] for a naive one). *)
Record datetime : Type := mk_datetime {
  year : Z; month : Z; day : Z;
  hour : Z; minute : Z; second : Z; microsecond : Z;
  utcoffset : option Z
}.

(** [dateutil.parser.parse] applied to a decoded value.  The library is not
    part of the repository, so what it makes of a text is the parameter
    [parse_text]: the timestamp it returns or the exception it raises (its
    [ParserError] for a text that is no date, an [OverflowError] for one whose
    numbers are too large); anything that is not text is refused with a
    [TypeError] before parsing starts. *)
Definition parse_date (parse_text : string -> result datetime) (v : pyval) : result datetime :=
  match v with
  | PStr s => parse_text s
  | _ => Raise TypeError
  end.

(** [parse_date(data[k]) if data.get(k) else dflt] *)
Definition date_or {A : Type} (parse_text : string -> result datetime)
    (inj : datetime -> A) (d : dict) (k : string) (dflt : A) : result A :=
  if truthy (get d k)
  then v <- getitem d k ;; t <- parse_date parse_text v ;; Ok (inj t)
  else Ok dflt.

(** ** Enumerations ([models.py])

    Each enumeration is a [str]-valued [Enum]: a closed list of members, each
    with its raw value. *)
Class PyEnum (E : Type) : Type := {
  members : list E;
  value : E -> string
}.

(** [E(v)]: the member whose raw value equals [v], in definition order; a
    [ValueError] when there is none.  A decoded value that is not text equals
    no member's value. *)
Definition of_value {E : Type} `{PyEnum E} (v : pyval) : result E :=
  match v with
  | PStr s =>
      match find (fun m => String.eqb (value m) s) members with
      | Some m => Ok m
      | None => Raise ValueError
      end
  | _ => Raise ValueError
  end.

Module LogLevel.
Inductive t : Type := TRACE | DEBUG | INFORMATION | WARNING | ERROR | CRITICAL.
#[global] Instance enum : PyEnum t := {|
  members := [TRACE; DEBUG; INFORMATION; WARNING; ERROR; CRITICAL];
  value m := match m with
             | TRACE => "Trace" | DEBUG => "Debug" | INFORMATION => "Information"
             | WARNING => "Warning" | ERROR => "Error" | CRITICAL => "Critical"
             end
|}.
End LogLevel.

Module ServerStatus.
Inductive t : Type := UNKNOWN | ONLINE | OFFLINE | MAINTENANCE | ERROR.
#[global] Instance enum : PyEnum t := {|
  members := [UNKNOWN; ONLINE; OFFLINE; MAINTENANCE; ERROR];
  value m := match m with
             | UNKNOWN => "Unknown" | ONLINE => "Online" | OFFLINE => "Offline"
             | MAINTENANCE => "Maintenance" | ERROR => "Error"
             end
|}.
End ServerStatus.

Module ExecutionStatus.
Inductive t : Type := PENDING | RUNNING | SUCCESS | FAILED | CANCELLED | TIMED_OUT.
#[global] Instance enum : PyEnum t := {|
  members := [PENDING; RUNNING; SUCCESS; FAILED; CANCELLED; TIMED_OUT];
  value m := match m with
             | PENDING => "Pending" | RUNNING => "Running" | SUCCESS => "Success"
             | FAILED => "Failed" | CANCELLED => "Cancelled" | TIMED_OUT => "TimedOut"
             end
|}.
End ExecutionStatus.

Module JobPriority.
Inductive t : Type := LOW | NORMAL | HIGH | CRITICAL.
#[global] Instance enum : PyEnum t := {|
  members := [LOW; NORMAL; HIGH; CRITICAL];
  value m := match m with
             | LOW => "Low" | NORMAL => "Normal" | HIGH => "High" | CRITICAL => "Critical"
             end
|}.
End JobPriority.

Module TriggerType.
Inductive t : Type := MANUAL | SCHEDULED | TRIGGERED | RETRY.
#[global] Instance enum : PyEnum t := {|
  members := [MANUAL; SCHEDULED; TRIGGERED; RETRY];
  value m := match m with
             | MANUAL => "Manual" | SCHEDULED => "Scheduled"
             | TRIGGERED => "Triggered" | RETRY => "Retry"
             end
|}.
End TriggerType.

Module AlertType.
Inductive t : Type :=
  ERROR_THRESHOLD | JOB_FAILURE | SERVER_OFFLINE | EXECUTION_TIMEOUT | CUSTOM.
#[global] Instance enum : PyEnum t := {|
  members := [ERROR_THRESHOLD; JOB_FAILURE; SERVER_OFFLINE; EXECUTION_TIMEOUT; CUSTOM];
  value m := match m with
             | ERROR_THRESHOLD => "ErrorThreshold" | JOB_FAILURE => "JobFailure"
             | SERVER_OFFLINE => "ServerOffline"
             | EXECUTION_TIMEOUT => "ExecutionTimeout" | CUSTOM => "Custom"
             end
|}.
End AlertType.

Module AlertSeverity.
Inductive t : Type := INFO | WARNING | ERROR | CRITICAL.
#[global] Instance enum : PyEnum t := {|
  members := [INFO; WARNING; ERROR; CRITICAL];
  value m := match m with
             | INFO => "Info" | WARNING => "Warning" | ERROR => "Error"
             | CRITICAL => "Critical"
             end
|}.
End AlertSeverity.

(** ** Model records ([models.py])

    A field that [from_dict] fills with [data.get(...)] holds whatever value
    the object carries, so it is a [pyval]; a field built by an enumeration or
    by the date parser has that type.  Keyword arguments are evaluated in the
    order they are written, so the first failing one decides the exception.
    [utcnow] is the reading of [datetime.utcnow()] a call makes; a call that
    does not read the clock does not depend on it. *)

(** [E(data[k]) if data.get(k) else None] *)
Definition enum_or_none {E : Type} `{PyEnum E} (d : dict) (k : string) : result (option E) :=
  if truthy (get d k)
  then v <- getitem d k ;; m <- of_value v ;; Ok (Some m)
  else Ok None.

Module LogEntry.
Record t : Type := mk {
  id : pyval;
  timestamp : datetime;
  level : LogLevel.t;
  message : pyval;
  server_name : pyval;
  job_id : pyval;
  execution_id : pyval;
  category : pyval;
  correlation_id : pyval;
  exception : pyval;
  properties : pyval;
  created_at : option datetime
}.

Definition from_dict (parse_text : string -> result datetime) (utcnow : datetime)
    (data : pyval) : result t :=
  d <- as_dict data ;;
  ts <- date_or parse_text (fun x => x) d "timestamp" utcnow ;;
  lv <- of_value (get_default d "level" (PStr "Information")) ;;
  ca <- date_or parse_text Some d "createdAt" None ;;
  Ok {| id := get_default d "id" (PStr "");
        timestamp := ts;
        level := lv;
        message := get_default d "message" (PStr "");
        server_name := get d "serverName";
        job_id := get d "jobId";
        execution_id := get d "executionId";
        category := get d "category";
        correlation_id := get d "correlationId";
        exception := get d "exception";
        properties := get d "properties";
        created_at := ca |}.

(** Whether [from_dict] calls [datetime.utcnow()] on [data]: when it gets to
    a ["timestamp"] that is missing or falsy. *)
Definition calls_utcnow (data : pyval) : bool :=
  match data with
  | PDict d => negb (truthy (get d "timestamp"))
  | _ => false
  end.
End LogEntry.

Module Server.
Record t : Type := mk {
  server_name : pyval;
  display_name : pyval;
  status : ServerStatus.t;
  agent_version : pyval;
  last_heartbeat : option datetime;
  is_active : pyval;
  ip_address : pyval;
  os_info : pyval
}.

Definition from_dict (parse_text : string -> result datetime) (data : pyval) : result t :=
  d <- as_dict data ;;
  st <- of_value (get_default d "status" (PStr "Unknown")) ;;
  hb <- date_or parse_text Some d "lastHeartbeat" None ;;
  Ok {| server_name := get_default d "serverName" (PStr "");
        display_name := get d "displayName";
        status := st;
        agent_version := get d "agentVersion";
        last_heartbeat := hb;
        is_active := get_default d "isActive" (PBool true);
        ip_address := get d "ipAddress";
        os_info := get d "osInfo" |}.
End Server.

Module Job.
Record t : Type := mk {
  job_id : pyval;
  display_name : pyval;
  server_name : pyval;
  description : pyval;
  schedule : pyval;
  priority : JobPriority.t;
  is_active : pyval;
  timeout_minutes : pyval;
  last_execution_at : option datetime;
  last_execution_status : option ExecutionStatus.t;
  tags : pyval
}.

Definition from_dict (parse_text : string -> result datetime) (data : pyval) : result t :=
  d <- as_dict data ;;
  pr <- of_value (get_default d "priority" (PStr "Normal")) ;;
  at_ <- date_or parse_text Some d "lastExecutionAt" None ;;
  st <- enum_or_none d "lastExecutionStatus" ;;
  Ok {| job_id := get_default d "jobId" (PStr "");
        display_name := get_default d "displayName" (PStr "");
        server_name := get_default d "serverName" (PStr "");
        description := get d "description";
        schedule := get d "schedule";
        priority := pr;
        is_active := get_default d "isActive" (PBool true);
        timeout_minutes := get d "timeoutMinutes";
        last_execution_at := at_;
        last_execution_status := st;
        tags := get_default d "tags" (PList []) |}.
End Job.

Module Execution.
Record t : Type := mk {
  id : pyval;
  job_id : pyval;
  server_name : pyval;
  status : ExecutionStatus.t;
  started_at : option datetime;
  completed_at : option datetime;
  duration_ms : pyval;
  trigger_type : TriggerType.t;
  triggered_by : pyval;
  error_message : pyval;
  output_message : pyval;
  parameters : pyval
}.

Definition from_dict (parse_text : string -> result datetime) (data : pyval) : result t :=
  d <- as_dict data ;;
  st <- of_value (get_default d "status" (PStr "Pending")) ;;
  sa <- date_or parse_text Some d "startedAt" None ;;
  ca <- date_or parse_text Some d "completedAt" None ;;
  tt <- of_value (get_default d "triggerType" (PStr "Manual")) ;;
  Ok {| id := get_default d "id" (PStr "");
        job_id := get_default d "jobId" (PStr "");
        server_name := get_default d "serverName" (PStr "");
        status := st;
        started_at := sa;
        completed_at := ca;
        duration_ms := get d "durationMs";
        trigger_type := tt;
        triggered_by := get d "triggeredBy";
        error_message := get d "errorMessage";
        output_message := get d "outputMessage";
        parameters := get d "parameters" |}.
End Execution.

Module Alert.
Record t : Type := mk {
  id : pyval;
  name : pyval;
  alert_type : AlertType.t;
  severity : AlertSeverity.t;
  is_active : pyval;
  description : pyval;
  condition : pyval
}.

Definition from_dict (data : pyval) : result t :=
  d <- as_dict data ;;
  ty <- of_value (get_default d "alertType" (PStr "Custom")) ;;
  sv <- of_value (get_default d "severity" (PStr "Warning")) ;;
  Ok {| id := get_default d "id" (PStr "");
        name := get_default d "name" (PStr "");
        alert_type := ty;
        severity := sv;
        is_active := get_default d "isActive" (PBool true);
        description := get d "description";
        condition := get d "condition" |}.
End Alert.

Module AlertInstance.
Record t : Type := mk {
  id : pyval;
  alert_id : pyval;
  alert_name : pyval;
  severity : AlertSeverity.t;
  triggered_at : datetime;
  acknowledged_at : option datetime;
  resolved_at : option datetime;
  acknowledged_by : pyval;
  resolved_by : pyval;
  message : pyval
}.

Definition from_dict (parse_text : string -> result datetime) (utcnow : datetime)
    (data : pyval) : result t :=
  d <- as_dict data ;;
  sv <- of_value (get_default d "severity" (PStr "Warning")) ;;
  ta <- date_or parse_text (fun x => x) d "triggeredAt" utcnow ;;
  aa <- date_or parse_text Some d "acknowledgedAt" None ;;
  ra <- date_or parse_text Some d "resolvedAt" None ;;
  Ok {| id := get_default d "id" (PStr "");
        alert_id := get_default d "alertId" (PStr "");
        alert_name := get_default d "alertName" (PStr "");
        severity := sv;
        triggered_at := ta;
        acknowledged_at := aa;
        resolved_at := ra;
        acknowledged_by := get d "acknowledgedBy";
        resolved_by := get d "resolvedBy";
        message := get d "message" |}.

(** Whether [from_dict] calls [datetime.utcnow()] on [data]: when, the
    severity accepted, it gets to a ["triggeredAt"] that is missing or
    falsy. *)
Definition calls_utcnow (data : pyval) : bool :=
  match data with
  | PDict d =>
      is_ok (@of_value AlertSeverity.t _ (get_default d "severity" (PStr "Warning")))
      && negb (truthy (get d "triggeredAt"))
  | _ => false
  end.
End AlertInstance.

(** What a [for] loop iterates over: the elements of a [list], the keys of a
    [dict], the characters of a [str]; [None], booleans and numbers are not
    iterable. *)
Definition iterate (v : pyval) : result (list pyval) :=
  match v with
  | PList l => Ok l
  | PDict d => Ok (map (fun kv => PStr (fst kv)) d)
  | PStr s => Ok (map (fun c => PStr (String c EmptyString)) (list_ascii_of_string s))
  | _ => Raise TypeError
  end.

Module PagedResult.
Record t (A : Type) : Type := mk {
  items : list A;
  page : pyval;
  page_size : pyval;
  total_count : pyval;
  total_pages : pyval
}.
Arguments mk {A} _ _ _ _ _.
Arguments items {A} _.
Arguments page {A} _.
Arguments page_size {A} _.
Arguments total_count {A} _.
Arguments total_pages {A} _.

(** [item_from_dict] is [item_class.from_dict]. *)
Definition from_dict {A : Type} (item_from_dict : pyval -> result A) (data : pyval)
    : result (t A) :=
  d <- as_dict data ;;
  its <- iterate (get_default d "items" (PList [])) ;;
  items <- map_result item_from_dict its ;;
  Ok {| items := items;
        page := get_default d "page" (PInt 1);
        page_size := get_default d "pageSize" (PInt 20);
        total_count := get_default d "totalCount" (PInt 0);
        total_pages := get_default d "totalPages" (PInt 0) |}.

(** [from_dict] for an item type whose factory acts on a state (it may read
    the clock). *)
Definition from_dict_st {A S : Type} (item_from_dict : pyval -> S -> result A * S)
    (data : pyval) (s : S) : result (t A) * S :=
  match as_dict data with
  | Ok d =>
      match iterate (get_default d "items" (PList [])) with
      | Ok its =>
          match map_st item_from_dict its s with
          | (Ok items, s') =>
              (Ok {| items := items;
                     page := get_default d "page" (PInt 1);
                     page_size := get_default d "pageSize" (PInt 20);
                     total_count := get_default d "totalCount" (PInt 0);
                     total_pages := get_default d "totalPages" (PInt 0) |}, s')
          | (Raise e, s') => (Raise e, s')
          end
      | Raise e => (Raise e, s)
      end
  | Raise e => (Raise e, s)
  end.
End PagedResult.

(** ** Text helpers for the transport layer *)

(** ASCII lower-casing, for header names. *)
Definition lower_ascii (c : ascii) : ascii :=
  let n := nat_of_ascii c in
  if (65 <=? n)%nat && (n <=? 90)%nat then ascii_of_nat (n + 32) else c.

Fixpoint lower (s : string) : string :=
  match s with
  | EmptyString => EmptyString
  | String c r => String (lower_ascii c) (lower r)
  end.

(** [headers.get(name)] on the case-insensitive mapping of a response. *)
Fixpoint header_get (hs : list (string * string)) (name : string) : option string :=
  match hs with
  | [] => None
  | (k, v) :: r => if String.eqb (lower k) (lower name) then Some v else header_get r name
  end.

(** The white space [int()] skips around a number.  A header value is text
    of one-byte characters (Latin-1): there [int()] skips the space, the
    characters 9 to 13, and the two white-space characters beyond ASCII,
    U+0085 and U+00A0; it does not skip the separators 28 to 31. *)
Definition is_space (c : ascii) : bool :=
  let n := nat_of_ascii c in
  (n =? 32)%nat || ((9 <=? n)%nat && (n <=? 13)%nat) || (n =? 133)%nat || (n =? 160)%nat.

Fixpoint lstrip (l : list ascii) : list ascii :=
  match l with
  | c :: r => if is_space c then lstrip r else l
  | [] => []
  end.

Definition strip (l : list ascii) : list ascii := rev (lstrip (rev (lstrip l))).

Definition digit_of (c : ascii) : option Z :=
  let n := nat_of_ascii c in
  if (48 <=? n)%nat && (n <=? 57)%nat then Some (Z.of_nat (n - 48)) else None.

(** Decimal digits, a single underscore allowed between two digits. *)
Fixpoint digits (l : list ascii) (acc : Z) (after_digit : bool) : option Z :=
  match l with
  | [] => if after_digit then Some acc else None
  | c :: r =>
      match digit_of c with
      | Some n => digits r (10 * acc + n) true
      | None => if Ascii.eqb c "_" && after_digit then digits r acc false else None
      end
  end.

(** How many decimal digits a text has. *)
Definition count_digits (l : list ascii) : nat :=
  List.length (filter (fun c => match digit_of c with Some _ => true | None => false end) l).

(** The most digits [int()] converts (the interpreter's default limit). *)
Definition max_str_digits : nat := 4300.

(** [int(s)] for a text of one-byte characters: surrounding white space, an
    optional sign, then decimal digits, no more of them than the
    interpreter's limit; a [ValueError] for anything else. *)
Definition py_int (s : string) : result Z :=
  let l := strip (list_ascii_of_string s) in
  let r := match l with
           | "+"%char :: r => digits r 0 false
           | "-"%char :: r => option_map Z.opp (digits r 0 false)
           | _ => digits l 0 false
           end in
  match r with
  | Some z => if (count_digits l <=? max_str_digits)%nat then Ok z else Raise ValueError
  | None => Raise ValueError
  end.

(** ** Requests and responses *)

(** How [response.json()] ends: with the decoded value, with the decoder's
    [ValueError] on a body that is not JSON, or with its [RecursionError] on a
    body nested too deeply. *)
Inductive decoding : Type :=
| Decoded (v : pyval)
| NotJson
| TooDeep.

Module Response.
(** A [requests.Response].  The text of a header value is its characters as
    one-byte (Latin-1) characters. *)
Record t : Type := mk {
  status_code : Z;
  content : string;
  json : decoding;
  headers : list (string * string)
}.
End Response.

Module Request.
(** The arguments of one [session.request] call. *)
Record t : Type := mk {
  method : string;
  url : string;
  headers : list (string * string);
  params : option dict;
  json : pyval;
  timeout : Z
}.
End Request.

(** How a [session.request] call ends: with a response, or with one of the
    [requests] exceptions, by the [except] clause of [_request] that catches
    it. *)
Inductive net_outcome : Type :=
| Responded (r : Response.t)
| ConnectionFailed (e : string)
| TimedOut
| RequestFailed (e : string).

(** What the program reads from its surroundings: the date parser, the text
    of a timestamp, the successive readings of the clock, the [USER]
    environment variable, and the remote service behind the HTTP session
    (with the session's retry adapter). *)
Record Runtime : Type := mk_runtime {
  parse_text : string -> result datetime;
  isoformat : datetime -> string;
  clock : nat -> datetime;
  environ_USER : option string;
  net : Request.t -> net_outcome
}.

(** The fields of an [FMSClient] object (the session and its retry settings
    are the [net] of the runtime). *)
Record fms_client : Type := mk_client {
  base_url : string;
  api_key : option string;
  server_name : string;
  timeout : Z;
  _access_token : option string;
  _refresh_token : option string;
  _token_expires_at : option datetime
}.

(** [if v:] for an [Optional[str]]. *)
Definition set (o : option string) : bool :=
  match o with Some s => negb (String.eqb s "") | None => false end.

(** ** The client's state and its monad

    The client object with its token fields, the [session.request] calls made
    so far (oldest first), and how often the clock was read.  An exception
    leaves the state as it was when it was raised. *)
Record world : Type := mk_world {
  self : fms_client;
  sent : list Request.t;
  ticks : nat
}.

Definition M (A : Type) : Type := world -> result A * world.

Definition ret {A : Type} (a : A) : M A := fun w => (Ok a, w).

Definition lift {A : Type} (r : result A) : M A := fun w => (r, w).

Definition mbind {A B : Type} (m : M A) (f : A -> M B) : M B :=
  fun w => match m w with
           | (Ok a, w') => f a w'
           | (Raise e, w') => (Raise e, w')
           end.

Notation "x <~ m ;; k" := (mbind m (fun x => k))
  (at level 61, m at next level, right associativity).

(** [try: m except FMSError: pass] *)
Definition swallow_fms {A : Type} (m : M A) : M unit :=
  fun w => match m w with
           | (Ok _, w') => (Ok tt, w')
           | (Raise (FMS _), w') => (Ok tt, w')
           | (Raise e, w') => (Raise e, w')
           end.

(** [datetime.utcnow()] *)
Definition utcnow (rt : Runtime) : M datetime :=
  fun w => (Ok (clock rt (ticks w)), mk_world (self w) (sent w) (S (ticks w))).

Definition get_self : M fms_client := fun w => (Ok (self w), w).

(** A [from_dict] that takes the reading of the clock, called in the state of
    the client: the clock is read, once, exactly when [calls data] says that
    [from_dict] calls [datetime.utcnow()]. *)
Definition with_clock {A : Type} (rt : Runtime) (calls : pyval -> bool)
    (from_dict : datetime -> pyval -> result A) (data : pyval) : M A :=
  fun w => (from_dict (clock rt (ticks w)) data,
            if calls data then mk_world (self w) (sent w) (S (ticks w)) else w).

(** The [dict] comprehension of [_request]: [{k: v for k, v in d.items() if v is not None}]. *)
Definition is_not_none (v : pyval) : bool :=
  match v with PNone => false | _ => true end.

Definition drop_none (d : dict) : dict := filter (fun kv => is_not_none (snd kv)) d.

Module FMSClient.
Definition _get_headers (self : fms_client) : list (string * string) :=
  let headers := [("Accept", "application/json"); ("Content-Type", "application/json")] in
  if set (api_key self) then
    headers ++ [("X-Api-Key", match api_key self with Some k => k | None => "" end)]
  else if set (_access_token self) then
    headers ++ [("Authorization",
                 "Bearer " ++ match _access_token self with Some k => k | None => "" end)]
  else headers.

(** [data.get("detail", dflt) if data else dflt] *)
Definition detail_or (data : pyval) (dflt : string) : result pyval :=
  if truthy data
  then d <- as_dict data ;; Ok (get_default d "detail" (PStr dflt))
  else Ok (PStr dflt).

(** The [try] block that opens [_handle_response]:
    [data = response.json() if response.content else None], and [None] when
    [json()] raises its [ValueError]; its [RecursionError] is not caught. *)
Definition decoded (response : Response.t) : result pyval :=
  if negb (String.eqb (Response.content response) "")
  then match Response.json response with
       | Decoded v => Ok v
       | NotJson => Ok PNone
       | TooDeep => Raise RecursionError
       end
  else Ok PNone.

Definition _handle_response (response : Response.t) : result pyval :=
  data <- decoded response ;;
  let sc := Response.status_code response in
  if (sc =? 200)%Z || (sc =? 201)%Z then Ok data
  else if (sc =? 204)%Z then Ok PNone
  else if (sc =? 400)%Z then
    errors <- (if truthy data then d <- as_dict data ;; Ok (get d "errors") else Ok PNone) ;;
    msg <- detail_or data "Validation failed" ;;
    Raise (FMS (mkValidationError msg (Some sc) data errors))
  else if (sc =? 401)%Z then
    msg <- detail_or data "Authentication failed" ;;
    Raise (FMS (mkAuthenticationError msg (Some sc) data))
  else if (sc =? 403)%Z then
    msg <- detail_or data "Access denied" ;;
    Raise (FMS (mkAuthorizationError msg (Some sc) data))
  else if (sc =? 404)%Z then
    msg <- detail_or data "Resource not found" ;;
    Raise (FMS (mkNotFoundError msg (Some sc) data))
  else if (sc =? 409)%Z then
    msg <- detail_or data "Resource conflict" ;;
    Raise (FMS (mkConflictError msg (Some sc) data))
  else if (sc =? 429)%Z then
    let retry_after := header_get (Response.headers response) "Retry-After" in
    msg <- detail_or data "Rate limit exceeded" ;;
    ra <- (if set retry_after
           then n <- py_int (match retry_after with Some s => s | None => "" end) ;;
                Ok (Some n)
           else Ok None) ;;
    Raise (FMS (mkRateLimitError msg (Some sc) data ra))
  else if (sc >=? 500)%Z then
    msg <- detail_or data "Server error" ;;
    Raise (FMS (mkServerError msg (Some sc) data))
  else
    msg <- detail_or data ("HTTP " ++ str_of_int sc) ;;
    Raise (FMS (mkFMSError msg (Some sc) data)).

(** The request [_request] hands to the session. *)
Definition build_request (self : fms_client) (method endpoint : string)
    (params : option dict) (data : pyval) : Request.t :=
  let url := base_url self ++ "/api/" ++ endpoint in
  let headers := _get_headers self in
  let params :=
    match params with
    | Some d => match d with [] => params | _ :: _ => Some (drop_none d) end
    | None => params
    end in
  Request.mk method url headers params data (timeout self).

Definition _request (rt : Runtime) (method endpoint : string)
    (params : option dict) (data : pyval) : M pyval :=
  fun w =>
    let req := build_request (self w) method endpoint params data in
    let w' := mk_world (self w) (sent w ++ [req]) (ticks w) in
    match net rt req with
    | Responded response => (_handle_response response, w')
    | ConnectionFailed e =>
        (Raise (FMS (mkConnectionError
                       ("Failed to connect to " ++ base_url (self w) ++ ": " ++ e))), w')
    | TimedOut =>
        (Raise (FMS (mkTimeoutError ("Request to " ++ Request.url req ++ " timed out"))), w')
    | RequestFailed e =>
        (Raise (FMS (mkFMSError (PStr ("Request failed: " ++ e)) None PNone)), w')
    end.

(** The three assignments that end [logout]. *)
Definition clear_tokens : M unit :=
  fun w =>
    let c := self w in
    (Ok tt,
     mk_world (mk_client (base_url c) (api_key c) (server_name c) (timeout c) None None None)
              (sent w) (ticks w)).

Definition logout (rt : Runtime) : M unit :=
  c <~ get_self ;;
  _ <~ (if set (_refresh_token c)
        then swallow_fms
               (_request rt "POST" "auth/logout" None
                  (PDict [("refreshToken", of_opt_str (_refresh_token c))]))
        else ret tt) ;;
  clear_tokens.

Definition get_dashboard (rt : Runtime) : M pyval :=
  _request rt "GET" "dashboard" None PNone.
End FMSClient.

(** ** Resource sub-clients ([client.py]) *)

(** An argument typed [Union[E, str]]: a member of the enumeration or a raw
    string. *)
Inductive enum_arg (E : Type) : Type :=
| Member (m : E)
| Raw (s : string).
Arguments Member {E} m.
Arguments Raw {E} s.

(** [if isinstance(x, str): x = E(x)].  The enumerations derive from [str], so
    the test holds for a member too, and [E(member)] is that member. *)
Definition coerce {E : Type} `{PyEnum E} (x : enum_arg E) : result E :=
  match x with
  | Member m => Ok m
  | Raw s => of_value (PStr s)
  end.

Definition of_opt_int (o : option Z) : pyval :=
  match o with Some z => PInt z | None => PNone end.

Definition of_opt_strs (o : option (list string)) : pyval :=
  match o with Some l => PList (map PStr l) | None => PNone end.

(** [[f(x) for x in response]] *)
Definition each {A : Type} (f : pyval -> result A) (response : pyval) : result (list A) :=
  its <- iterate response ;; map_result f its.

(** The same for an [f] that acts on the state of the client. *)
Definition each_st {A : Type} (f : pyval -> M A) (response : pyval) : M (list A) :=
  fun w => match iterate response with
           | Ok its => map_st f its w
           | Raise e => (Raise e, w)
           end.

(** [given or self._client.server_name] *)
Definition name_or (given : option string) (c : fms_client) : string :=
  if set given then match given with Some s => s | None => "" end else server_name c.

Module LogClient.
Definition create (rt : Runtime) (message : string) (level : enum_arg LogLevel.t)
    (job_id execution_id category correlation_id exception : option string)
    (properties : pyval) : M LogEntry.t :=
  level <~ lift (coerce level) ;;
  now <~ utcnow rt ;;
  c <~ get_self ;;
  let data := PDict [
    ("timestamp", PStr (isoformat rt now ++ "Z"));
    ("level", PStr (value level));
    ("message", PStr message);
    ("serverName", PStr (server_name c));
    ("jobId", of_opt_str job_id);
    ("executionId", of_opt_str execution_id);
    ("category", of_opt_str category);
    ("correlationId", of_opt_str correlation_id);
    ("exception", of_opt_str exception);
    ("properties", properties)] in
  response <~ FMSClient._request rt "POST" "logs" None data ;;
  with_clock rt LogEntry.calls_utcnow (LogEntry.from_dict (parse_text rt)) response.

(** [level.value if isinstance(level, LogLevel) else level] *)
Definition level_param (level : option (enum_arg LogLevel.t)) : pyval :=
  match level with
  | Some (Member m) => PStr (value m)
  | Some (Raw s) => PStr s
  | None => PNone
  end.

Definition of_opt_date (rt : Runtime) (o : option datetime) : pyval :=
  match o with Some t => PStr (isoformat rt t) | None => PNone end.

Definition search (rt : Runtime) (server_name job_id : option string)
    (level : option (enum_arg LogLevel.t)) (start_date end_date : option datetime)
    (page page_size : Z) : M (PagedResult.t LogEntry.t) :=
  let params := [
    ("serverName", of_opt_str server_name);
    ("jobId", of_opt_str job_id);
    ("level", level_param level);
    ("startDate", of_opt_date rt start_date);
    ("endDate", of_opt_date rt end_date);
    ("page", PInt page);
    ("pageSize", PInt page_size)] in
  response <~ FMSClient._request rt "GET" "logs/search" (Some params) PNone ;;
  PagedResult.from_dict_st
    (with_clock rt LogEntry.calls_utcnow (LogEntry.from_dict (parse_text rt))) response.

(** The severity shortcuts.  Their [**kwargs] are the keyword arguments
    [create] takes after [level]. *)
Definition trace (rt : Runtime) (message : string)
    (job_id execution_id category correlation_id exception : option string)
    (properties : pyval) : M LogEntry.t :=
  create rt message (Member LogLevel.TRACE) job_id execution_id category correlation_id
    exception properties.

Definition debug (rt : Runtime) (message : string)
    (job_id execution_id category correlation_id exception : option string)
    (properties : pyval) : M LogEntry.t :=
  create rt message (Member LogLevel.DEBUG) job_id execution_id category correlation_id
    exception properties.

Definition info (rt : Runtime) (message : string)
    (job_id execution_id category correlation_id exception : option string)
    (properties : pyval) : M LogEntry.t :=
  create rt message (Member LogLevel.INFORMATION) job_id execution_id category
    correlation_id exception properties.

Definition warning (rt : Runtime) (message : string)
    (job_id execution_id category correlation_id exception : option string)
    (properties : pyval) : M LogEntry.t :=
  create rt message (Member LogLevel.WARNING) job_id execution_id category correlation_id
    exception properties.

(** [error] and [critical] name [exception] themselves, so it is never among
    their [**kwargs]: [Some s] is an exception object whose [str()] is [s]
    (an object is truthy whatever its text), and [None] leaves the key out,
    which is [create]'s default. *)
Definition error (rt : Runtime) (message : string) (exception : option string)
    (job_id execution_id category correlation_id : option string)
    (properties : pyval) : M LogEntry.t :=
  create rt message (Member LogLevel.ERROR) job_id execution_id category correlation_id
    exception properties.

Definition critical (rt : Runtime) (message : string) (exception : option string)
    (job_id execution_id category correlation_id : option string)
    (properties : pyval) : M LogEntry.t :=
  create rt message (Member LogLevel.CRITICAL) job_id execution_id category
    correlation_id exception properties.

Definition get (rt : Runtime) (log_id : string) : M LogEntry.t :=
  response <~ FMSClient._request rt "GET" ("logs/" ++ log_id) None PNone ;;
  with_clock rt LogEntry.calls_utcnow (LogEntry.from_dict (parse_text rt)) response.
End LogClient.

Module ServerClient.
Definition heartbeat (rt : Runtime) (status : enum_arg ServerStatus.t)
    (agent_version : string) (system_info : pyval) : M unit :=
  status <~ lift (coerce status) ;;
  c <~ get_self ;;
  let data := PDict [
    ("serverName", PStr (server_name c));
    ("status", PStr (value status));
    ("agentVersion", PStr agent_version);
    ("systemInfo", system_info)] in
  _ <~ FMSClient._request rt "POST" "servers/heartbeat" None data ;;
  ret tt.

Definition get (rt : Runtime) (server_name : option string) : M Server.t :=
  c <~ get_self ;;
  let name := name_or server_name c in
  response <~ FMSClient._request rt "GET" ("servers/" ++ name) None PNone ;;
  lift (Server.from_dict (parse_text rt) response).

Definition set_maintenance (rt : Runtime) (server_name : option string) (enable : bool)
    : M unit :=
  c <~ get_self ;;
  let name := name_or server_name c in
  let endpoint := "servers/" ++ name ++ "/maintenance" in
  _ <~ FMSClient._request rt (if enable then "POST" else "DELETE") endpoint None PNone ;;
  ret tt.

Definition list (rt : Runtime) : M (Datatypes.list Server.t) :=
  response <~ FMSClient._request rt "GET" "servers" None PNone ;;
  lift (each (Server.from_dict (parse_text rt)) response).
End ServerClient.

Module JobClient.
Definition register (rt : Runtime) (job_id display_name : string)
    (description schedule : option string) (priority : enum_arg JobPriority.t)
    (timeout_minutes : option Z) (tags : option (list string)) : M Job.t :=
  priority <~ lift (coerce priority) ;;
  c <~ get_self ;;
  let data := PDict [
    ("jobId", PStr job_id);
    ("displayName", PStr display_name);
    ("description", of_opt_str description);
    ("serverName", PStr (server_name c));
    ("schedule", of_opt_str schedule);
    ("priority", PStr (value priority));
    ("timeoutMinutes", of_opt_int timeout_minutes);
    ("tags", of_opt_strs tags)] in
  response <~ FMSClient._request rt "POST" "jobs/register" None data ;;
  lift (Job.from_dict (parse_text rt) response).

Definition get (rt : Runtime) (job_id : string) : M Job.t :=
  response <~ FMSClient._request rt "GET" ("jobs/" ++ job_id) None PNone ;;
  lift (Job.from_dict (parse_text rt) response).

Definition activate (rt : Runtime) (job_id : string) : M unit :=
  _ <~ FMSClient._request rt "POST" ("jobs/" ++ job_id ++ "/activate") None PNone ;;
  ret tt.

Definition deactivate (rt : Runtime) (job_id : string) : M unit :=
  _ <~ FMSClient._request rt "POST" ("jobs/" ++ job_id ++ "/deactivate") None PNone ;;
  ret tt.

Definition list (rt : Runtime) (server_name : option string) : M (Datatypes.list Job.t) :=
  response <~ (if set server_name
               then FMSClient._request rt "GET"
                      ("jobs/server/" ++ match server_name with Some s => s | None => "" end)
                      None PNone
               else FMSClient._request rt "GET" "jobs" None PNone) ;;
  lift (each (Job.from_dict (parse_text rt)) response).
End JobClient.

Module ExecutionClient.
Definition start (rt : Runtime) (job_id : string) (trigger_type : enum_arg TriggerType.t)
    (triggered_by : option string) (parameters : pyval) : M Execution.t :=
  trigger_type <~ lift (coerce trigger_type) ;;
  c <~ get_self ;;
  let data := PDict [
    ("jobId", PStr job_id);
    ("serverName", PStr (server_name c));
    ("triggerType", PStr (value trigger_type));
    ("triggeredBy",
     if set triggered_by then of_opt_str triggered_by
     else PStr (match environ_USER rt with Some u => u | None => "unknown" end));
    ("parameters", parameters)] in
  response <~ FMSClient._request rt "POST" "executions" None data ;;
  lift (Execution.from_dict (parse_text rt) response).

Definition complete (rt : Runtime) (execution_id : string)
    (status : enum_arg ExecutionStatus.t)
    (output_message error_message : option string) : M Execution.t :=
  status <~ lift (coerce status) ;;
  let data := PDict [
    ("status", PStr (value status));
    ("outputMessage", of_opt_str output_message);
    ("errorMessage", of_opt_str error_message)] in
  response <~ FMSClient._request rt "PUT" ("executions/" ++ execution_id ++ "/complete")
                None data ;;
  lift (Execution.from_dict (parse_text rt) response).

Definition cancel (rt : Runtime) (execution_id : string) (reason : option string) : M unit :=
  _ <~ FMSClient._request rt "POST" ("executions/" ++ execution_id ++ "/cancel") None
         (PDict [("reason", of_opt_str reason)]) ;;
  ret tt.

Definition get (rt : Runtime) (execution_id : string) : M Execution.t :=
  response <~ FMSClient._request rt "GET" ("executions/" ++ execution_id) None PNone ;;
  lift (Execution.from_dict (parse_text rt) response).

Definition get_running (rt : Runtime) : M (list Execution.t) :=
  response <~ FMSClient._request rt "GET" "executions/running" None PNone ;;
  lift (each (Execution.from_dict (parse_text rt)) response).
End ExecutionClient.

Module AlertClient.
Definition get (rt : Runtime) (alert_id : string) : M Alert.t :=
  response <~ FMSClient._request rt "GET" ("alerts/" ++ alert_id) None PNone ;;
  lift (Alert.from_dict response).

Definition get_active_instances (rt : Runtime) : M (Datatypes.list AlertInstance.t) :=
  response <~ FMSClient._request rt "GET" "alerts/instances/active" None PNone ;;
  each_st
    (with_clock rt AlertInstance.calls_utcnow (AlertInstance.from_dict (parse_text rt)))
    response.

Definition acknowledge (rt : Runtime) (instance_id : string) (notes : option string)
    : M unit :=
  _ <~ FMSClient._request rt "POST" ("alerts/instances/" ++ instance_id ++ "/acknowledge")
         None (PDict [("notes", of_opt_str notes)]) ;;
  ret tt.

Definition resolve (rt : Runtime) (instance_id : string) (notes : option string) : M unit :=
  _ <~ FMSClient._request rt "POST" ("alerts/instances/" ++ instance_id ++ "/resolve")
         None (PDict [("notes", of_opt_str notes)]) ;;
  ret tt.

Definition list (rt : Runtime) : M (Datatypes.list Alert.t) :=
  response <~ FMSClient._request rt "GET" "alerts" None PNone ;;
  lift (each (Alert.from_dict) response).
End AlertClient.

(** * Statements and sample data

    The predicates the properties below are stated with, and the concrete
    objects, responses and clients of their examples. *)

(** The round trip of one enumeration: a raw value of a member constructs a
    member with that raw value (the very member it is the value of), and a
    string that is no member's raw value constructs nothing. *)
Definition round_trips (E : Type) `{PyEnum E} : Prop :=
  (forall s : string, (exists m : E, value m = s) ->
     exists m' : E, of_value (PStr s) = Ok m' /\ value m' = s)
  /\ (forall m : E, of_value (PStr (value m)) = Ok m)
  /\ (forall s : string, (forall m : E, value m <> s) ->
        of_value (PStr s) = @Raise E ValueError).

(** None of the keys [ks] is in [d]. *)
Fixpoint absent (d : dict) (ks : list string) : Prop :=
  match ks with
  | [] => True
  | k :: r => lookup d k = None /\ absent d r
  end.

(** The keys of each model's optional fields (the dataclass fields that have
    a default). *)
Definition LogEntry_optional : list string :=
  ["serverName"; "jobId"; "executionId"; "category"; "correlationId"; "exception";
   "properties"; "createdAt"].
Definition Server_optional : list string :=
  ["displayName"; "status"; "agentVersion"; "lastHeartbeat"; "isActive"; "ipAddress";
   "osInfo"].
Definition Job_optional : list string :=
  ["description"; "schedule"; "priority"; "isActive"; "timeoutMinutes";
   "lastExecutionAt"; "lastExecutionStatus"; "tags"].
Definition Execution_optional : list string :=
  ["status"; "startedAt"; "completedAt"; "durationMs"; "triggerType"; "triggeredBy";
   "errorMessage"; "outputMessage"; "parameters"].
Definition Alert_optional : list string := ["isActive"; "description"; "condition"].
Definition AlertInstance_optional : list string :=
  ["acknowledgedAt"; "resolvedAt"; "acknowledgedBy"; "resolvedBy"; "message"].

(** A fixed reading of the clock for the examples. *)
Definition epoch : datetime := mk_datetime 1970 1 1 0 0 0 0 None.

(** A job object with its three required fields and nothing else. *)
Definition bare_job : dict :=
  [("jobId", PStr "JOB-001"); ("displayName", PStr "Nightly import");
   ("serverName", PStr "srv-01")].

(** What [from_dict] does with the timestamp field [key], read back from the
    result by [field]: a truthy value the parser refuses makes
    deserialization fail; a truthy value the parser accepts is the field of
    the result, and deserialization succeeds whenever it does for the object
    without that key; a falsy value counts as the key being absent. *)
Definition date_field {T : Type} (parse : string -> result datetime)
    (from_dict : pyval -> result T) (key : string) (field : T -> option datetime) : Prop :=
  forall (d : dict) (v : pyval),
    lookup d key = Some v ->
    (truthy v = true ->
       (forall e, parse_date parse v = Raise e -> is_ok (from_dict (PDict d)) = false)
       /\ (forall t, parse_date parse v = Ok t ->
             is_ok (from_dict (PDict (dict_del key d))) = true ->
             exists r, from_dict (PDict d) = Ok r /\ field r = Some t))
    /\ (truthy v = false -> from_dict (PDict d) = from_dict (PDict (dict_del key d))).

(** A date parser for the examples: it knows one text. *)
Definition sample_parse (s : string) : result datetime :=
  if String.eqb s "2024-03-01T12:00:00Z"
  then Ok (mk_datetime 2024 3 1 12 0 0 0 (Some 0%Z))
  else Raise ParserError.

(** A pagination scalar: the object's value at [k], [dflt] when [k] is absent. *)
Definition scalar (d : dict) (k : string) (dflt : Z) : pyval :=
  match lookup d k with Some v => v | None => PInt dflt end.

(** The empty first page of the specification's example. *)
Definition empty_page : dict :=
  [("items", PList []); ("page", PInt 1); ("pageSize", PInt 20);
   ("totalCount", PInt 0); ("totalPages", PInt 0)].

(** The error taxonomy of the specification: the kind keyed to a status code
    that is none of 200, 201 and 204, and the generic message of that
    status. *)
Definition taxonomy (sc : Z) : FMSKind :=
  if (sc =? 400)%Z then ValidationError
  else if (sc =? 401)%Z then AuthenticationError
  else if (sc =? 403)%Z then AuthorizationError
  else if (sc =? 404)%Z then NotFoundError
  else if (sc =? 409)%Z then ConflictError
  else if (sc =? 429)%Z then RateLimitError
  else if (500 <=? sc)%Z then ServerError
  else FMSError.

Definition generic_message (sc : Z) : string :=
  match taxonomy sc with
  | ValidationError => "Validation failed"
  | AuthenticationError => "Authentication failed"
  | AuthorizationError => "Access denied"
  | NotFoundError => "Resource not found"
  | ConflictError => "Resource conflict"
  | RateLimitError => "Rate limit exceeded"
  | ServerError => "Server error"
  | _ => "HTTP " ++ str_of_int sc
  end.

(** The message the specification asks for: the payload's ["detail"] when the
    payload is an object that has one, the generic message otherwise. *)
Definition expected_message (data : pyval) (sc : Z) : pyval :=
  match data with
  | PDict d => get_default d "detail" (PStr (generic_message sc))
  | _ => PStr (generic_message sc)
  end.

(** A payload [_handle_response] can take a ["detail"] from, or skips: a JSON
    object, or a falsy value (no body, [null], [0], [false], empty text or
    array). *)
Definition object_or_falsy (data : pyval) : bool :=
  match data with
  | PDict _ => true
  | _ => negb (truthy data)
  end.

(** What the 429 branch makes of the [Retry-After] header. *)
Definition retry_after_of (response : Response.t) : result (option Z) :=
  match header_get (Response.headers response) "Retry-After" with
  | Some s => if String.eqb s "" then Ok None else n <- py_int s ;; Ok (Some n)
  | None => Ok None
  end.

(** The double quote, for the text of a body. *)
Definition dquote : string := String (ascii_of_nat 34) EmptyString.

(** A 404 response with the body [{"detail": "Job not found"}]. *)
Definition job_not_found : Response.t :=
  Response.mk 404
    ("{" ++ dquote ++ "detail" ++ dquote ++ ": " ++ dquote ++ "Job not found" ++ dquote ++ "}")
    (Decoded (PDict [("detail", PStr "Job not found")]))
    [("Content-Type", "application/json")].

(** A 404 response whose body is the JSON array [[404]]. *)
Definition not_found_array_body : Response.t :=
  Response.mk 404 "[404]" (Decoded (PList [PInt 404])) [("Content-Type", "application/json")].

(** A 429 response with no body and the given headers. *)
Definition rate_limited (headers : list (string * string)) : Response.t :=
  Response.mk 429 "" NotJson headers.

(** The parameters of a request, as the pairs of its mapping. *)
Definition params_items (req : Request.t) : dict :=
  match Request.params req with Some d => d | None => [] end.

(** The three token fields are [None]. *)
Definition tokens_cleared (w : world) : Prop :=
  _access_token (self w) = None
  /\ _refresh_token (self w) = None
  /\ _token_expires_at (self w) = None.

(** The remote invalidation call of [logout] in the state [w]. *)
Definition invalidation (rt : Runtime) (w : world) : result pyval * world :=
  FMSClient._request rt "POST" "auth/logout" None
    (PDict [("refreshToken", of_opt_str (_refresh_token (self w)))]) w.

(** The call returned, or raised an error of the SDK's taxonomy. *)
Definition returns_or_raises_fms {A : Type} (r : result A) : Prop :=
  match r with
  | Ok _ => True
  | Raise (FMS _) => True
  | Raise _ => False
  end.

(** A logged-in client, and a service that answers every request with a 503
    and an error object. *)
Definition logged_in : world :=
  mk_world
    (mk_client "https://fms.example.com" None "srv-01" 30
       (Some "access-1") (Some "refresh-1") (Some epoch))
    [] 0.

Definition unavailable : Runtime :=
  mk_runtime sample_parse (fun _ => "1970-01-01T00:00:00") (fun _ => epoch) None
    (fun _ => Responded
                (Response.mk 503 "{...}" (Decoded (PDict [("detail", PStr "down")])) [])).

(** An operation takes the member and its raw string alike. *)
Definition member_or_raw {E A : Type} `{PyEnum E} (op : enum_arg E -> M A) : Prop :=
  forall (m : E) (w : world), op (Raw (value m)) w = op (Member m) w.

(** An operation refuses a string that is no member's raw value with the
    enumeration's [ValueError], the state, and so the list of requests made,
    left as it was. *)
Definition validates_raw {E A : Type} `{PyEnum E} (op : enum_arg E -> M A) : Prop :=
  forall (s : string) (w : world),
    (forall m : E, value m <> s) -> op (Raw s) w = (Raise ValueError, w).

(** The request [search] makes for a raw level string [s]. *)
Definition search_request (rt : Runtime) (c : fms_client) (server_name job_id : option string)
    (s : string) (start_date end_date : option datetime) (page page_size : Z) : Request.t :=
  FMSClient.build_request c "GET" "logs/search"
    (Some [("serverName", of_opt_str server_name);
           ("jobId", of_opt_str job_id);
           ("level", PStr s);
           ("startDate", LogClient.of_opt_date rt start_date);
           ("endDate", LogClient.of_opt_date rt end_date);
           ("page", PInt page);
           ("pageSize", PInt page_size)])
    PNone.

(** A service that answers every request with the empty first page. *)
Definition answering : Runtime :=
  mk_runtime sample_parse (fun _ => "1970-01-01T00:00:00") (fun _ => epoch) None
    (fun _ => Responded (Response.mk 200 "{...}" (Decoded (PDict empty_page)) [])).

(** [headers.get(name)] on the plain mapping of a request. *)
Definition request_header (hs : list (string * string)) (name : string) : option string :=
  option_map snd (find (fun kv => String.eqb (fst kv) name) hs).

(** The status codes [_handle_response] returns on. *)
Definition returns_payload (sc : Z) : bool :=
  (sc =? 200)%Z || (sc =? 201)%Z || (sc =? 204)%Z.

(** An action leaves the client object as it is and makes at most [n]
    requests, which come after those already made. *)
Definition sends {A : Type} (n : nat) (m : M A) : Prop :=
  forall w : world,
    self (snd (m w)) = self w
    /\ exists l, sent (snd (m w)) = (sent w ++ l)%list /\ (List.length l <= n)%nat.

(** A log operation makes exactly one request, a [POST] to [logs] without
    query parameters, whose body carries the level [lv], the message, the
    client's server name and the exception text. *)
Definition logs_at (lv : string) (message : string) (exception : option string)
    (op : M LogEntry.t) : Prop :=
  forall w : world,
    exists (req : Request.t) (d : dict),
      sent (snd (op w)) = (sent w ++ [req])%list
      /\ Request.method req = "POST"
      /\ Request.url req = base_url (self w) ++ "/api/logs"
      /\ Request.params req = None
      /\ Request.json req = PDict d
      /\ lookup d "level" = Some (PStr lv)
      /\ lookup d "message" = Some (PStr message)
      /\ lookup d "serverName" = Some (PStr (server_name (self w)))
      /\ lookup d "exception" = Some (of_opt_str exception).

(** The request by which [logout] invalidates the refresh token of [c]. *)
Definition logout_request (c : fms_client) : Request.t :=
  Request.mk "POST" (base_url c ++ "/api/auth/logout") (FMSClient._get_headers c) None
    (PDict [("refreshToken", of_opt_str (_refresh_token c))]) (timeout c).

(** A client with an API key and a stale session. *)
Definition keyed : world :=
  mk_world
    (mk_client "https://fms.example.com" (Some "key-1") "srv-01" 30
       (Some "access-1") (Some "refresh-1") (Some epoch))
    [] 0.

(** The keys each model's [from_dict] reads. *)
Definition LogEntry_keys : list string :=
  ["id"; "timestamp"; "level"; "message"] ++ LogEntry_optional.
Definition Server_keys : list string := "serverName" :: Server_optional.
Definition Job_keys : list string := ["jobId"; "displayName"; "serverName"] ++ Job_optional.
Definition Execution_keys : list string := ["id"; "jobId"; "serverName"] ++ Execution_optional.
Definition Alert_keys : list string := ["id"; "name"; "alertType"; "severity"] ++ Alert_optional.
Definition AlertInstance_keys : list string :=
  ["id"; "alertId"; "alertName"; "severity"; "triggeredAt"] ++ AlertInstance_optional.
Definition PagedResult_keys : list string :=
  ["items"; "page"; "pageSize"; "totalCount"; "totalPages"].

(** Two objects hold the same at each of the keys [ks]. *)
Definition agree_on (ks : list string) (d d' : dict) : Prop :=
  forall k, In k ks -> lookup d' k = lookup d k.

(** A job object with fields the model does not know. *)
Definition bare_job_extended : dict :=
  ("tenant", PStr "acme") :: bare_job ++ [("retries", PInt 3)].

(** The enumeration-valued field [key] is strict: a value that is not the raw
    value of a member of [E] fails the deserialization. *)
Definition strict_enum_field (E : Type) `{PyEnum E} {T : Type}
    (from_dict : pyval -> result T) (key : string) : Prop :=
  forall (d : dict) (v : pyval),
    lookup d key = Some v ->
    (forall m : E, v <> PStr (value m)) ->
    is_ok (from_dict (PDict d)) = false.

(** How an operation of a client [c] that makes its request to [endpoint]
    ends when the transport fails with the outcome [o]: in the error
    [_request] makes of it, whose text names the base URL of the client
    (no connection), the full URL of the request (a timeout) or the
    library's own message (any other failure). *)
Definition fails_with {T : Type} (c : fms_client) (endpoint : string) (o : net_outcome)
    (r : result T) : Prop :=
  match o with
  | Responded _ => True
  | ConnectionFailed msg =>
      r = Raise (FMS (mk_fms_error ConnectionError
                        (PStr ("Failed to connect to " ++ base_url c ++ ": " ++ msg))
                        None PNone NoExtra))
  | TimedOut =>
      r = Raise (FMS (mk_fms_error TimeoutError
                        (PStr ("Request to " ++ (base_url c ++ "/api/" ++ endpoint)
                                 ++ " timed out"))
                        None PNone NoExtra))
  | RequestFailed msg =>
      r = Raise (FMS (mk_fms_error FMSError (PStr ("Request failed: " ++ msg))
                        None PNone NoExtra))
  end.

(** A service that does not answer in time. *)
Definition stalled : Runtime :=
  mk_runtime sample_parse (fun _ => "1970-01-01T00:00:00") (fun _ => epoch) None
    (fun _ => TimedOut).

(** A service that answers every request with 204 and no body. *)
Definition no_content : Runtime :=
  mk_runtime sample_parse (fun _ => "1970-01-01T00:00:00") (fun _ => epoch) None
    (fun _ => Responded (Response.mk 204 "" NotJson [])).

(** A service that answers every request with one job object. *)
Definition one_job : Runtime :=
  mk_runtime sample_parse (fun _ => "1970-01-01T00:00:00") (fun _ => epoch) None
    (fun _ => Responded (Response.mk 200 "{...}" (Decoded (PDict bare_job)) [])).

(** A query parameter as it reaches the session: nothing when the value is
    [None]. *)
Definition opt_param (k : string) (v : pyval) : dict :=
  match v with PNone => [] | _ => [(k, v)] end.

(** The text [__str__] shows for a message. *)
Definition shown_message (fmt : pyval -> string) (v : pyval) : string :=
  match v with PStr s => s | _ => fmt v end.

(** A request made on behalf of the client [c]: under its [/api/] prefix,
    with its headers (so with its credentials) and its timeout. *)
Definition from_client (c : fms_client) (req : Request.t) : Prop :=
  Request.headers req = FMSClient._get_headers c
  /\ Request.timeout req = timeout c
  /\ exists endpoint, Request.url req = base_url c ++ "/api/" ++ endpoint.

(** An action leaves the client object as it is, and every request it makes
    is made on behalf of that client. *)
Definition on_behalf {A : Type} (m : M A) : Prop :=
  forall w : world,
    self (snd (m w)) = self w
    /\ exists l, sent (snd (m w)) = (sent w ++ l)%list /\ Forall (from_client (self w)) l.

(** A property of actions holds of every operation of the sub-clients and of
    [get_dashboard], at all arguments. *)
Definition every_operation (rt : Runtime) (P : forall A : Type, M A -> Prop) : Prop :=
  (forall message level job_id execution_id category correlation_id exception properties,
      P _ (LogClient.create rt message level job_id execution_id category
             correlation_id exception properties)
      /\ P _ (LogClient.trace rt message job_id execution_id category correlation_id
                exception properties)
      /\ P _ (LogClient.debug rt message job_id execution_id category correlation_id
                exception properties)
      /\ P _ (LogClient.info rt message job_id execution_id category correlation_id
                exception properties)
      /\ P _ (LogClient.warning rt message job_id execution_id category correlation_id
                exception properties)
      /\ P _ (LogClient.error rt message exception job_id execution_id category
                correlation_id properties)
      /\ P _ (LogClient.critical rt message exception job_id execution_id category
                correlation_id properties))
  /\ (forall log_id, P _ (LogClient.get rt log_id))
  /\ (forall server_name job_id level start_date end_date page page_size,
      P _ (LogClient.search rt server_name job_id level start_date end_date page
             page_size))
  /\ (forall status agent_version system_info,
      P _ (ServerClient.heartbeat rt status agent_version system_info))
  /\ (forall server_name enable,
      P _ (ServerClient.get rt server_name)
      /\ P _ (ServerClient.set_maintenance rt server_name enable))
  /\ P _ (ServerClient.list rt)
  /\ (forall job_id display_name description schedule priority timeout_minutes tags,
      P _ (JobClient.register rt job_id display_name description schedule priority
             timeout_minutes tags))
  /\ (forall job_id, P _ (JobClient.get rt job_id)
                     /\ P _ (JobClient.activate rt job_id)
                     /\ P _ (JobClient.deactivate rt job_id))
  /\ (forall server_name, P _ (JobClient.list rt server_name))
  /\ (forall job_id trigger_type triggered_by parameters,
      P _ (ExecutionClient.start rt job_id trigger_type triggered_by parameters))
  /\ (forall execution_id status output_message error_message reason,
      P _ (ExecutionClient.complete rt execution_id status output_message error_message)
      /\ P _ (ExecutionClient.cancel rt execution_id reason)
      /\ P _ (ExecutionClient.get rt execution_id))
  /\ P _ (ExecutionClient.get_running rt)
  /\ (forall alert_id notes,
      P _ (AlertClient.get rt alert_id)
      /\ P _ (AlertClient.acknowledge rt alert_id notes)
      /\ P _ (AlertClient.resolve rt alert_id notes))
  /\ P _ (AlertClient.list rt)
  /\ P _ (AlertClient.get_active_instances rt)
  /\ P _ (FMSClient.get_dashboard rt).

(** The value of [d] at [k], if there is one, is one a timestamp field takes:
    a falsy value, for which the field counts as missing, or a text the date
    parser accepts. *)
Definition date_ok (parse : string -> result datetime) (d : dict) (k : string) : Prop :=
  match lookup d k with
  | None => True
  | Some v => truthy v = false \/ exists s t, v = PStr s /\ parse s = Ok t
  end.

(** The value of [d] at [k], if there is one, is the raw value of a member of
    the enumeration [E]. *)
Definition enum_ok (E : Type) `{PyEnum E} (d : dict) (k : string) : Prop :=
  match lookup d k with
  | None => True
  | Some v => exists m : E, v = PStr (value m)
  end.

(** A log entry with its four required fields and nothing else, and the same
    with a timestamp that is no date. *)
Definition plain_entry : dict :=
  [("id", PStr "1"); ("timestamp", PStr "2024-03-01T12:00:00Z"); ("level", PStr "Error");
   ("message", PStr "disk full")].

Definition garbled_entry : dict :=
  [("id", PStr "1"); ("timestamp", PStr "garbage"); ("level", PStr "Error");
   ("message", PStr "disk full")].

(** A service that answers every request with a 429 whose [Retry-After]
    header is an HTTP date. *)
Definition throttling : Runtime :=
  mk_runtime sample_parse (fun _ => "1970-01-01T00:00:00") (fun _ => epoch) None
    (fun _ => Responded (rate_limited [("Retry-After", "Wed, 21 Oct 2015 07:28:00 GMT")])).

(** A service that answers every request with a 404 whose body is a JSON
    array. *)
Definition misrouted : Runtime :=
  mk_runtime sample_parse (fun _ => "1970-01-01T00:00:00") (fun _ => epoch) None
    (fun _ => Responded not_found_array_body).

(** An action makes no request and leaves the client object as it is. *)
Definition keeps {A : Type} (m : M A) : Prop :=
  forall w : world, self (snd (m w)) = self w /\ sent (snd (m w)) = sent w.

(** The elements of [l] deserialized one after the other by [from_dict],
    each with the reading of the clock at its turn: the clock has been read
    [n] times before the first element, and once more after every element
    for which [calls] says that its [from_dict] reads it.  The first element
    that fails ends the deserialization. *)
Fixpoint in_turn {A : Type} (rt : Runtime) (calls : pyval -> bool)
    (from_dict : datetime -> pyval -> result A) (n : nat) (l : list pyval)
    : result (list A) :=
  match l with
  | [] => Ok []
  | x :: r =>
      y <- from_dict (clock rt n) x ;;
      ys <- in_turn rt calls from_dict (if calls x then S n else n) r ;;
      Ok (y :: ys)
  end.

(** The page of the object [data] whose items are deserialized by
    [items_of]. *)
Definition page_of {A : Type} (items_of : list pyval -> result (list A)) (data : pyval)
    : result (PagedResult.t A) :=
  d <- as_dict data ;;
  its <- iterate (get_default d "items" (PList [])) ;;
  items <- items_of its ;;
  Ok (PagedResult.mk items (get_default d "page" (PInt 1))
        (get_default d "pageSize" (PInt 20)) (get_default d "totalCount" (PInt 0))
        (get_default d "totalPages" (PInt 0))).

(** A clock that shows the number of times it has been read before, as the
    second of the minute, and a service that answers every request with a
    page of three log entries, the second of which has a timestamp. *)
Definition counting (n : nat) : datetime := mk_datetime 1970 1 1 0 0 (Z.of_nat n) 0 None.

Definition three_entries : Runtime :=
  mk_runtime sample_parse (fun _ => "1970-01-01T00:00:00") counting None
    (fun _ => Responded
                (Response.mk 200 "{...}"
                   (Decoded (PDict [("items",
                                     PList [PDict [("id", PStr "a")];
                                            PDict [("id", PStr "b");
                                                   ("timestamp", PStr "2024-03-01T12:00:00Z")];
                                            PDict [("id", PStr "c")]])]))
                   [])).

(** In the state [w] the action makes exactly one request, with the method
    [method], to the endpoint [endpoint] of the client. *)
Definition requests {A : Type} (m : M A) (w : world) (method endpoint : string) : Prop :=
  exists req : Request.t,
    sent (snd (m w)) = (sent w ++ [req])%list
    /\ Request.method req = method
    /\ Request.url req = base_url (self w) ++ "/api/" ++ endpoint.

(** In the state [w] the action makes exactly one request, whose body is an
    object that holds [v] at the key [k]. *)
Definition posts {A : Type} (m : M A) (w : world) (k : string) (v : pyval) : Prop :=
  exists (req : Request.t) (d : dict),
    sent (snd (m w)) = (sent w ++ [req])%list
    /\ Request.json req = PDict d
    /\ lookup d k = Some v.

(** * Properties *)

(** ** Dictionaries *)

Lemma lookup_del_same (k : string) (d : dict) : lookup (dict_del k d) k = None.
Proof.
  induction d as [|[k' v] r IH]; simpl; [reflexivity|].
  destruct (String.eqb k' k) eqn:E; [exact IH|].
  simpl. rewrite E. exact IH.
Qed.

Lemma lookup_del_other (k k' : string) (d : dict) :
  String.eqb k k' = false -> lookup (dict_del k d) k' = lookup d k'.
Proof.
  intros Hne. induction d as [|[k0 v] r IH]; simpl; [reflexivity|].
  destruct (String.eqb k0 k) eqn:E.
  - apply String.eqb_eq in E. subst k0. rewrite Hne. exact IH.
  - simpl. rewrite IH. reflexivity.
Qed.

Lemma get_del_other (k k' : string) (d : dict) :
  String.eqb k k' = false -> get (dict_del k d) k' = get d k'.
Proof. intros H. unfold get. rewrite lookup_del_other by exact H. reflexivity. Qed.

Lemma get_default_del_other (k k' : string) (d : dict) (dflt : pyval) :
  String.eqb k k' = false -> get_default (dict_del k d) k' dflt = get_default d k' dflt.
Proof. intros H. unfold get_default. rewrite lookup_del_other by exact H. reflexivity. Qed.

Lemma get_absent (d : dict) (k : string) : lookup d k = None -> get d k = PNone.
Proof. intros H. unfold get. rewrite H. reflexivity. Qed.

Lemma get_default_absent (d : dict) (k : string) (dflt : pyval) :
  lookup d k = None -> get_default d k dflt = dflt.
Proof. intros H. unfold get_default. rewrite H. reflexivity. Qed.

(** ** Enumerations *)

Section EnumFacts.
Context {E : Type} `{PyEnum E}.

Lemma of_value_sound (s : string) (m : E) :
  of_value (PStr s) = Ok m -> value m = s.
Proof.
  unfold of_value.
  destruct (find (fun m0 => String.eqb (value m0) s) members) as [m'|] eqn:F;
    [|discriminate].
  intros Heq. injection Heq as <-.
  apply find_some in F. destruct F as [_ F]. apply String.eqb_eq. exact F.
Qed.

Lemma of_value_invalid (s : string) :
  (forall m : E, value m <> s) -> of_value (PStr s) = @Raise E ValueError.
Proof.
  intros Hno. unfold of_value.
  destruct (find (fun m0 => String.eqb (value m0) s) members) as [m'|] eqn:F;
    [|reflexivity].
  apply find_some in F. destruct F as [_ F]. apply String.eqb_eq in F.
  exfalso. exact (Hno m' F).
Qed.

Lemma of_value_not_text (v : pyval) :
  (forall s, v <> PStr s) -> of_value v = @Raise E ValueError.
Proof.
  intros Hv. destruct v; try reflexivity. exfalso. exact (Hv s eq_refl).
Qed.

Hypothesis members_complete : forall m : E, In m members.

Lemma of_value_valid (s : string) :
  (exists m : E, value m = s) ->
  exists m' : E, of_value (PStr s) = Ok m' /\ value m' = s.
Proof.
  intros [m Hm]. unfold of_value.
  destruct (find (fun m0 => String.eqb (value m0) s) members) as [m'|] eqn:F.
  - exists m'. split; [reflexivity|].
    apply find_some in F. destruct F as [_ F]. apply String.eqb_eq. exact F.
  - exfalso. pose proof (find_none _ _ F m (members_complete m)) as Hn.
    simpl in Hn. rewrite Hm, String.eqb_refl in Hn. discriminate.
Qed.
End EnumFacts.

(** C5: for each of the seven enumerations, constructing a member from the raw
    value of a member and reading its raw value gives the string back, and
    constructing from a string that is no member's raw value raises. *)
Theorem enum_construction_round_trip :
  round_trips LogLevel.t /\ round_trips ServerStatus.t /\ round_trips ExecutionStatus.t
  /\ round_trips JobPriority.t /\ round_trips TriggerType.t
  /\ round_trips AlertType.t /\ round_trips AlertSeverity.t.
Proof.
  repeat split; try (apply of_value_valid; intros m; destruct m; simpl; tauto);
    try (intros m; destruct m; reflexivity); apply of_value_invalid.
Qed.

Lemma enum_construction_round_trip_witness :
  (exists m : LogLevel.t, of_value (PStr "Warning") = Ok m /\ value m = "Warning")
  /\ of_value (PStr "Fatal") = @Raise JobPriority.t ValueError.
Proof.
  pose proof enum_construction_round_trip as
    [[Hlog _] [_ [_ [[_ [_ Hjob]] _]]]].
  split.
  - apply Hlog. exists LogLevel.WARNING. reflexivity.
  - apply Hjob. intros m; destruct m; discriminate.
Defined.

(** ** Model deserialization *)

Section DateFields.
Variable parse_text : string -> result datetime.
Context {A : Type} (inj : datetime -> A).

Lemma date_or_present (d : dict) (k : string) (dflt : A) (v : pyval) :
  lookup d k = Some v -> truthy v = true ->
  date_or parse_text inj d k dflt = (t <- parse_date parse_text v ;; Ok (inj t)).
Proof.
  intros Hl Ht. unfold date_or, get, getitem. rewrite Hl, Ht. reflexivity.
Qed.

Lemma date_or_falsy (d : dict) (k : string) (dflt : A) (v : pyval) :
  lookup d k = Some v -> truthy v = false ->
  date_or parse_text inj d k dflt = Ok dflt.
Proof.
  intros Hl Ht. unfold date_or, get. rewrite Hl, Ht. reflexivity.
Qed.

Lemma date_or_absent (d : dict) (k : string) (dflt : A) :
  lookup d k = None -> date_or parse_text inj d k dflt = Ok dflt.
Proof.
  intros Hl. unfold date_or, get. rewrite Hl. reflexivity.
Qed.

Lemma date_or_del_same (d : dict) (k : string) (dflt : A) :
  date_or parse_text inj (dict_del k d) k dflt = Ok dflt.
Proof. apply date_or_absent, lookup_del_same. Qed.

Lemma date_or_del_other (d : dict) (k k' : string) (dflt : A) :
  String.eqb k k' = false ->
  date_or parse_text inj (dict_del k d) k' dflt = date_or parse_text inj d k' dflt.
Proof.
  intros H. unfold date_or, get, getitem. rewrite lookup_del_other by exact H.
  reflexivity.
Qed.
End DateFields.

Lemma enum_or_none_absent {E : Type} `{PyEnum E} (d : dict) (k : string) :
  lookup d k = None -> enum_or_none d k = @Ok (option E) None.
Proof. intros Hl. unfold enum_or_none, get. rewrite Hl. reflexivity. Qed.

Lemma enum_or_none_del_other {E : Type} `{PyEnum E} (d : dict) (k k' : string) :
  String.eqb k k' = false ->
  @enum_or_none E _ (dict_del k d) k' = enum_or_none d k'.
Proof.
  intros Hne. unfold enum_or_none, get, getitem. rewrite lookup_del_other by exact Hne.
  reflexivity.
Qed.

Ltac unfold_from_dict :=
  unfold LogEntry.from_dict, Server.from_dict, Job.from_dict, Execution.from_dict,
    Alert.from_dict, AlertInstance.from_dict;
  cbn [as_dict bind].

Ltac unfold_from_dict_in H :=
  unfold LogEntry.from_dict, Server.from_dict, Job.from_dict, Execution.from_dict,
    Alert.from_dict, AlertInstance.from_dict in H;
  cbn [as_dict bind] in H.

(** Rewrites every read of [d] at an absent key of [H : absent d ks]. *)
Ltac use_absent H :=
  simpl in H;
  unfold date_or, enum_or_none, get, get_default, getitem;
  repeat match type of H with
         | lookup _ _ = None /\ _ =>
             let Hk := fresh "Hk" in
             destruct H as [Hk H]; rewrite ?Hk
         end;
  cbn [truthy bind].

Lemma date_ok_date_or {A : Type} (parse : string -> result datetime)
    (inj : datetime -> A) (d : dict) (k : string) (dflt : A) :
  date_ok parse d k -> exists t, date_or parse inj d k dflt = Ok t.
Proof.
  unfold date_ok, date_or, get, getitem.
  destruct (lookup d k) as [v|]; [|intros _; eexists; reflexivity].
  intros [Hf | [s [t [-> Hp]]]].
  - rewrite Hf. eexists; reflexivity.
  - destruct (truthy (PStr s)); [|eexists; reflexivity].
    cbn [bind parse_date]. rewrite Hp. eexists; reflexivity.
Qed.

Lemma enum_ok_of_value {E : Type} `{PyEnum E} (d : dict) (k : string) (m0 : E) :
  (forall m : E, of_value (PStr (value m)) = Ok m) ->
  enum_ok E d k -> exists m, of_value (get_default d k (PStr (value m0))) = Ok m.
Proof.
  intros Hrt. unfold enum_ok, get_default.
  destruct (lookup d k) as [v|].
  - intros [m ->]. exists m. apply Hrt.
  - intros _. exists m0. apply Hrt.
Qed.

(** C6, as the code has it: deserializing an object that has none of a
    model's optional keys succeeds when the values it carries for the
    required enumeration and timestamp fields are well-formed (for [Server],
    [Job] and [Execution] there is no such field, so always), and every
    optional field of the result is its default: [None] throughout, [True]
    for the active flags, [Unknown], [Normal], [Pending] and [Manual] for the
    enumerations, the empty list for a job's tags. *)
Theorem from_dict_defaults (parse : string -> result datetime) (now : datetime) (d : dict) :
  (absent d LogEntry_optional ->
   date_ok parse d "timestamp" -> enum_ok LogLevel.t d "level" ->
   exists ts lv,
     date_or parse (fun x => x) d "timestamp" now = Ok ts
     /\ of_value (get_default d "level" (PStr "Information")) = Ok lv
     /\ LogEntry.from_dict parse now (PDict d) =
        Ok (LogEntry.mk (get_default d "id" (PStr "")) ts lv
              (get_default d "message" (PStr ""))
              PNone PNone PNone PNone PNone PNone PNone None))
  /\ (absent d Server_optional ->
      Server.from_dict parse (PDict d) =
      Ok (Server.mk (get_default d "serverName" (PStr "")) PNone ServerStatus.UNKNOWN
            PNone None (PBool true) PNone PNone))
  /\ (absent d Job_optional ->
      Job.from_dict parse (PDict d) =
      Ok (Job.mk (get_default d "jobId" (PStr "")) (get_default d "displayName" (PStr ""))
            (get_default d "serverName" (PStr ""))
            PNone PNone JobPriority.NORMAL (PBool true) PNone None None (PList [])))
  /\ (absent d Execution_optional ->
      Execution.from_dict parse (PDict d) =
      Ok (Execution.mk (get_default d "id" (PStr "")) (get_default d "jobId" (PStr ""))
            (get_default d "serverName" (PStr ""))
            ExecutionStatus.PENDING None None PNone TriggerType.MANUAL
            PNone PNone PNone PNone))
  /\ (absent d Alert_optional ->
      enum_ok AlertType.t d "alertType" -> enum_ok AlertSeverity.t d "severity" ->
      exists ty sv,
        of_value (get_default d "alertType" (PStr "Custom")) = Ok ty
        /\ of_value (get_default d "severity" (PStr "Warning")) = Ok sv
        /\ Alert.from_dict (PDict d) =
           Ok (Alert.mk (get_default d "id" (PStr "")) (get_default d "name" (PStr ""))
                 ty sv (PBool true) PNone PNone))
  /\ (absent d AlertInstance_optional ->
      enum_ok AlertSeverity.t d "severity" -> date_ok parse d "triggeredAt" ->
      exists sv ta,
        of_value (get_default d "severity" (PStr "Warning")) = Ok sv
        /\ date_or parse (fun x => x) d "triggeredAt" now = Ok ta
        /\ AlertInstance.from_dict parse now (PDict d) =
           Ok (AlertInstance.mk (get_default d "id" (PStr ""))
                 (get_default d "alertId" (PStr "")) (get_default d "alertName" (PStr ""))
                 sv ta None None PNone PNone PNone)).
Proof.
  split; [|split; [|split; [|split; [|split]]]].
  - intros Habs Hts Hlv.
    destruct (date_ok_date_or parse (fun x => x) d "timestamp" now Hts) as [ts Hts'].
    destruct (enum_ok_of_value d "level" LogLevel.INFORMATION
                ltac:(intros m; destruct m; reflexivity) Hlv) as [lv Hlv'].
    exists ts, lv. split; [exact Hts'|]. split; [exact Hlv'|].
    unfold_from_dict. rewrite Hts'. cbn [bind].
    change (PStr "Information") with (PStr (value LogLevel.INFORMATION)).
    rewrite Hlv'. cbn [bind]. use_absent Habs. reflexivity.
  - intros Habs. unfold_from_dict. use_absent Habs. reflexivity.
  - intros Habs. unfold_from_dict. use_absent Habs. reflexivity.
  - intros Habs. unfold_from_dict. use_absent Habs. reflexivity.
  - intros Habs Hty Hsv.
    destruct (enum_ok_of_value d "alertType" AlertType.CUSTOM
                ltac:(intros m; destruct m; reflexivity) Hty) as [ty Hty'].
    destruct (enum_ok_of_value d "severity" AlertSeverity.WARNING
                ltac:(intros m; destruct m; reflexivity) Hsv) as [sv Hsv'].
    exists ty, sv. split; [exact Hty'|]. split; [exact Hsv'|].
    unfold_from_dict.
    change (PStr "Custom") with (PStr (value AlertType.CUSTOM)).
    change (PStr "Warning") with (PStr (value AlertSeverity.WARNING)).
    rewrite Hty', Hsv'. cbn [bind]. use_absent Habs. reflexivity.
  - intros Habs Hsv Hta.
    destruct (enum_ok_of_value d "severity" AlertSeverity.WARNING
                ltac:(intros m; destruct m; reflexivity) Hsv) as [sv Hsv'].
    destruct (date_ok_date_or parse (fun x => x) d "triggeredAt" now Hta) as [ta Hta'].
    exists sv, ta. split; [exact Hsv'|]. split; [exact Hta'|].
    unfold_from_dict.
    change (PStr "Warning") with (PStr (value AlertSeverity.WARNING)).
    rewrite Hsv', Hta'. cbn [bind]. use_absent Habs. reflexivity.
Qed.

Lemma from_dict_defaults_witness :
  exists ts lv,
    date_or sample_parse (fun x => x) plain_entry "timestamp" epoch = Ok ts
    /\ of_value (get_default plain_entry "level" (PStr "Information")) = Ok lv
    /\ LogEntry.from_dict sample_parse epoch (PDict plain_entry) =
       Ok (LogEntry.mk (get_default plain_entry "id" (PStr "")) ts lv
             (get_default plain_entry "message" (PStr ""))
             PNone PNone PNone PNone PNone PNone PNone None).
Proof.
  apply (proj1 (from_dict_defaults sample_parse epoch plain_entry)).
  - cbn. repeat split.
  - right. exists "2024-03-01T12:00:00Z", (mk_datetime 2024 3 1 12 0 0 0 (Some 0%Z)).
    split; reflexivity.
  - exists LogLevel.ERROR. reflexivity.
Defined.

(** An entry with its four required fields and none of the optional ones,
    whose timestamp is no date: it is not deserialized with defaults, the
    parser's refusal fails it. *)
Lemma from_dict_malformed_required_field_fails :
  absent garbled_entry LogEntry_optional
  /\ LogEntry.from_dict sample_parse epoch (PDict garbled_entry) = Raise ParserError.
Proof. split; [cbn; repeat split|reflexivity]. Qed.

(** No member of [LogLevel] is constructed from a falsy value. *)
Lemma LogLevel_of_falsy (v : pyval) :
  truthy v = false -> of_value v = @Raise LogLevel.t ValueError.
Proof.
  intros Hv. destruct v as [| | |s| |]; try reflexivity.
  simpl in Hv. apply negb_false_iff, String.eqb_eq in Hv. subst s. reflexivity.
Qed.

(** C10, as the code has it: with no ["level"] key, and timestamp fields that
    are missing, falsy or accepted by the parser, deserialization succeeds
    and the entry's level is [Information].  A ["level"] that is present with
    a falsy value is not defaulted: deserialization never succeeds then, the
    value is handed to the enumeration, and it is the enumeration's
    [ValueError] that is raised whenever the ["timestamp"], which is read
    first, is missing, falsy or accepted by the parser. *)
Theorem from_dict_level_default (parse : string -> result datetime) (now : datetime)
    (d : dict) :
  (lookup d "level" = None ->
   date_ok parse d "timestamp" -> date_ok parse d "createdAt" ->
   exists r, LogEntry.from_dict parse now (PDict d) = Ok r
             /\ LogEntry.level r = LogLevel.INFORMATION
             /\ date_or parse (fun x => x) d "timestamp" now = Ok (LogEntry.timestamp r)
             /\ date_or parse Some d "createdAt" None = Ok (LogEntry.created_at r))
  /\ (forall v, lookup d "level" = Some v -> truthy v = false ->
        is_ok (LogEntry.from_dict parse now (PDict d)) = false
        /\ (date_ok parse d "timestamp" ->
            LogEntry.from_dict parse now (PDict d) = Raise ValueError)).
Proof.
  split.
  - intros Hl Hts Hca.
    destruct (date_ok_date_or parse (fun x => x) d "timestamp" now Hts) as [ts Hts'].
    destruct (date_ok_date_or parse Some d "createdAt" None Hca) as [ca Hca'].
    unfold_from_dict. rewrite Hts'. cbn [bind].
    rewrite (get_default_absent d "level" _ Hl). cbn [of_value find members value
      LogLevel.enum String.eqb Ascii.eqb Bool.eqb bind].
    rewrite Hca'. cbn [bind]. eexists. repeat split.
  - intros v Hl Hv. split.
    + unfold_from_dict.
      destruct (date_or parse (fun x => x) d "timestamp" now); cbn [bind is_ok];
        [|reflexivity].
      unfold get_default. rewrite Hl, (LogLevel_of_falsy v Hv). reflexivity.
    + intros Hts.
      destruct (date_ok_date_or parse (fun x => x) d "timestamp" now Hts) as [ts Hts'].
      unfold_from_dict. rewrite Hts'. cbn [bind].
      unfold get_default. rewrite Hl, (LogLevel_of_falsy v Hv). reflexivity.
Qed.

Lemma from_dict_level_default_witness :
  exists r, LogEntry.from_dict sample_parse epoch (PDict [("message", PStr "started")]) = Ok r
            /\ LogEntry.level r = LogLevel.INFORMATION
            /\ date_or sample_parse (fun x => x) [("message", PStr "started")] "timestamp"
                 epoch = Ok (LogEntry.timestamp r)
            /\ date_or sample_parse Some [("message", PStr "started")] "createdAt" None
               = Ok (LogEntry.created_at r).
Proof.
  exact (proj1 (from_dict_level_default sample_parse epoch [("message", PStr "started")])
           eq_refl I I).
Defined.

(** A ["level"] of [null] or of the empty string is falsy and present: the
    entry is not given the [Information] level, deserialization raises. *)
Lemma from_dict_level_falsy_raises :
  LogEntry.from_dict (fun _ => Raise ParserError) epoch (PDict [("level", PNone)]) = Raise ValueError
  /\ LogEntry.from_dict (fun _ => Raise ParserError) epoch (PDict [("level", PStr "")]) = Raise ValueError.
Proof. split; reflexivity. Qed.

(** Case analysis on the next fallible step of a deserializer. *)
Ltac step_bind :=
  match goal with
  | |- context [bind ?m _] =>
      lazymatch m with
      | Ok _ => cbn [bind]
      | Raise _ => cbn [bind]
      | _ => destruct m; cbn [bind is_ok] in *
      end
  end.

Ltac push_del H :=
  rewrite ?date_or_del_same in H;
  rewrite ?date_or_del_other in H by reflexivity;
  rewrite ?enum_or_none_del_other in H by reflexivity;
  rewrite ?get_del_other in H by reflexivity;
  rewrite ?get_default_del_other in H by reflexivity.

Ltac push_del_goal :=
  rewrite ?date_or_del_same;
  rewrite ?date_or_del_other by reflexivity;
  rewrite ?enum_or_none_del_other by reflexivity;
  rewrite ?get_del_other by reflexivity;
  rewrite ?get_default_del_other by reflexivity.

Ltac date_field_cases key :=
  let d := fresh "d" in
  let v := fresh "v" in
  let Hl := fresh "Hl" in
  let Ht := fresh "Ht" in
  intros d v Hl; split; [intros Ht; split|intros Ht];
  [ let e := fresh "e" in
    let He := fresh "He" in
    intros e He; unfold_from_dict;
    erewrite (date_or_present _ _ _ key) by eassumption;
    rewrite He; cbn [bind]; repeat step_bind; reflexivity
  | let t := fresh "t" in
    let Hp := fresh "Hp" in
    let Hok := fresh "Hok" in
    intros t Hp Hok; unfold_from_dict_in Hok; push_del Hok; unfold_from_dict;
    erewrite (date_or_present _ _ _ key) by eassumption;
    rewrite Hp; cbn [bind]; repeat step_bind; try discriminate;
    eexists; split; reflexivity
  | unfold_from_dict; push_del_goal;
    erewrite (date_or_falsy _ _ _ key) by eassumption;
    reflexivity ].

(** C3, as the code has it: for each timestamp field of each model, a value
    that is present and truthy goes through the date parser, whose refusal
    fails the deserialization and whose result becomes the field; a value that
    is present but falsy (null, the empty string) is not parsed at all and the
    field takes its default as if the key were missing. *)
Theorem from_dict_timestamps (parse : string -> result datetime) (now : datetime) :
  date_field parse (LogEntry.from_dict parse now) "timestamp"
    (fun r => Some (LogEntry.timestamp r))
  /\ date_field parse (LogEntry.from_dict parse now) "createdAt" LogEntry.created_at
  /\ date_field parse (Server.from_dict parse) "lastHeartbeat" Server.last_heartbeat
  /\ date_field parse (Job.from_dict parse) "lastExecutionAt" Job.last_execution_at
  /\ date_field parse (Execution.from_dict parse) "startedAt" Execution.started_at
  /\ date_field parse (Execution.from_dict parse) "completedAt" Execution.completed_at
  /\ date_field parse (AlertInstance.from_dict parse now) "triggeredAt"
       (fun r => Some (AlertInstance.triggered_at r))
  /\ date_field parse (AlertInstance.from_dict parse now) "acknowledgedAt"
       AlertInstance.acknowledged_at
  /\ date_field parse (AlertInstance.from_dict parse now) "resolvedAt"
       AlertInstance.resolved_at.
Proof.
  split; [date_field_cases "timestamp"|].
  split; [date_field_cases "createdAt"|].
  split; [date_field_cases "lastHeartbeat"|].
  split; [date_field_cases "lastExecutionAt"|].
  split; [date_field_cases "startedAt"|].
  split; [date_field_cases "completedAt"|].
  split; [date_field_cases "triggeredAt"|].
  split; [date_field_cases "acknowledgedAt"|date_field_cases "resolvedAt"].
Qed.

Lemma from_dict_timestamps_witness :
  (exists r, LogEntry.from_dict sample_parse epoch
               (PDict [("timestamp", PStr "2024-03-01T12:00:00Z")]) = Ok r
             /\ Some (LogEntry.timestamp r) = Some (mk_datetime 2024 3 1 12 0 0 0 (Some 0%Z)))
  /\ is_ok (Server.from_dict sample_parse
              (PDict [("serverName", PStr "srv-01"); ("lastHeartbeat", PStr "yesterday")]))
     = false.
Proof.
  pose proof (from_dict_timestamps sample_parse epoch) as [Hts [_ [Hhb _]]].
  split.
  - exact (proj2 (proj1 (Hts [("timestamp", PStr "2024-03-01T12:00:00Z")] _ eq_refl) eq_refl)
             _ eq_refl eq_refl).
  - exact (proj1 (proj1 (Hhb [("serverName", PStr "srv-01");
                               ("lastHeartbeat", PStr "yesterday")] _ eq_refl) eq_refl)
             _ eq_refl).
Defined.

(** A ["timestamp"] that is present and is not a date (the empty string,
    which the parser refuses) does not fail the deserialization: the entry
    gets the clock's reading. *)
Lemma from_dict_empty_timestamp_succeeds :
  lookup [("timestamp", PStr "")] "timestamp" = Some (PStr "")
  /\ parse_date sample_parse (PStr "") = Raise ParserError
  /\ LogEntry.from_dict sample_parse epoch (PDict [("timestamp", PStr "")]) =
     Ok (LogEntry.mk (PStr "") epoch LogLevel.INFORMATION (PStr "")
           PNone PNone PNone PNone PNone PNone PNone None).
Proof. repeat split. Qed.

(** ** Paged results *)

Section MapResult.
Context {A B : Type} (f : A -> result B).

Lemma map_result_all_ok (l : list A) (ys : list B) :
  Forall2 (fun x y => f x = Ok y) l ys -> map_result f l = Ok ys.
Proof.
  induction 1 as [|x y l ys Hxy _ IH]; simpl; [reflexivity|].
  rewrite Hxy. cbn [bind]. rewrite IH. reflexivity.
Qed.

Lemma map_result_ok_inv (l : list A) (ys : list B) :
  map_result f l = Ok ys -> Forall2 (fun x y => f x = Ok y) l ys.
Proof.
  revert ys. induction l as [|x l IH]; simpl; intros ys Hm.
  - injection Hm as <-. constructor.
  - destruct (f x) as [y|e] eqn:Hx; cbn [bind] in Hm; [|discriminate].
    destruct (map_result f l) as [ys'|e] eqn:Hl; cbn [bind] in Hm; [|discriminate].
    injection Hm as <-. constructor; [exact Hx|apply IH; reflexivity].
Qed.

Lemma map_result_first_error (l1 l2 : list A) (x : A) (e : exn) :
  Forall (fun x0 => is_ok (f x0) = true) l1 -> f x = Raise e ->
  map_result f (l1 ++ x :: l2)%list = Raise e.
Proof.
  intros Hall Hx. induction Hall as [|x0 l1 H0 _ IH]; simpl.
  - rewrite Hx. reflexivity.
  - destruct (f x0); [|discriminate]. cbn [bind]. rewrite IH. reflexivity.
Qed.
End MapResult.

(** C7: [PagedResult.from_dict] sends the elements of the ["items"] array
    (none when the key is absent) through the item factory in order, the
    result's items being the factory's results position by position and the
    first failing element failing the whole; the four scalars are copied from
    the object, 1, 20, 0 and 0 standing in for an absent key. *)
Theorem paged_result_from_dict {A : Type} (item_from_dict : pyval -> result A)
    (d : dict) (l : list pyval) :
  lookup d "items" = Some (PList l) \/ (lookup d "items" = None /\ l = []) ->
  (forall xs : list A,
      Forall2 (fun j x => item_from_dict j = Ok x) l xs ->
      PagedResult.from_dict item_from_dict (PDict d) =
      Ok (PagedResult.mk xs (scalar d "page" 1) (scalar d "pageSize" 20)
            (scalar d "totalCount" 0) (scalar d "totalPages" 0)))
  /\ (forall r, PagedResult.from_dict item_from_dict (PDict d) = Ok r ->
        Forall2 (fun j x => item_from_dict j = Ok x) l (PagedResult.items r))
  /\ (forall (l1 : list pyval) (j : pyval) (l2 : list pyval) (e : exn),
        l = (l1 ++ j :: l2)%list ->
        Forall (fun j0 => is_ok (item_from_dict j0) = true) l1 ->
        item_from_dict j = Raise e ->
        PagedResult.from_dict item_from_dict (PDict d) = Raise e).
Proof.
  intros Hitems.
  assert (Hget : get_default d "items" (PList []) = PList l).
  { unfold get_default. destruct Hitems as [-> | [-> ->]]; reflexivity. }
  unfold PagedResult.from_dict. cbn [as_dict bind]. rewrite Hget. cbn [iterate bind].
  split; [|split].
  - intros xs Hxs. rewrite (map_result_all_ok _ _ _ Hxs). reflexivity.
  - intros r Hr.
    destruct (map_result item_from_dict l) as [xs|e] eqn:Hm; cbn [bind] in Hr;
      [|discriminate].
    injection Hr as <-. cbn [PagedResult.items]. apply map_result_ok_inv. exact Hm.
  - intros l1 j l2 e -> Hall Hj.
    rewrite (map_result_first_error _ _ _ _ _ Hall Hj). reflexivity.
Qed.

Lemma paged_result_from_dict_witness :
  PagedResult.from_dict (LogEntry.from_dict sample_parse epoch) (PDict empty_page) =
  Ok (PagedResult.mk [] (PInt 1) (PInt 20) (PInt 0) (PInt 0)).
Proof.
  exact (proj1 (paged_result_from_dict (LogEntry.from_dict sample_parse epoch)
                  empty_page [] (or_introl eq_refl))
           [] (Forall2_nil _)).
Defined.

(** ** Response handling *)

Lemma detail_or_object_or_falsy (data : pyval) (sc : Z) (dflt : string) :
  object_or_falsy data = true -> dflt = generic_message sc ->
  FMSClient.detail_or data dflt = Ok (expected_message data sc).
Proof.
  intros Hd ->. unfold FMSClient.detail_or, expected_message.
  destruct data as [| b | z | s | l | d]; simpl in Hd |- *;
    try reflexivity.
  - destruct b; [discriminate|reflexivity].
  - apply negb_true_iff in Hd. rewrite Hd. reflexivity.
  - apply negb_true_iff in Hd. rewrite Hd. reflexivity.
  - destruct l; [reflexivity|discriminate].
  - destruct d; reflexivity.
Qed.

(** [errors = data.get("errors") if data else None] of the 400 branch. *)
Lemma errors_object_or_falsy (data : pyval) :
  object_or_falsy data = true ->
  exists errors,
    (if truthy data then d <- as_dict data ;; Ok (get d "errors") else Ok PNone)
    = Ok errors.
Proof.
  intros Hd. destruct data as [| b | z | s | l | d]; simpl in Hd |- *;
    try (eexists; reflexivity).
  - destruct b; [discriminate|eexists; reflexivity].
  - apply negb_true_iff in Hd. rewrite Hd. eexists; reflexivity.
  - apply negb_true_iff in Hd. rewrite Hd. eexists; reflexivity.
  - destruct l; [eexists; reflexivity|discriminate].
  - destruct d; eexists; reflexivity.
Qed.

(** On a payload that is an object or falsy, [_handle_response] follows the
    specification's table: the payload for 200 and 201, nothing for 204, and
    otherwise the error of the status code's kind with the expected message,
    the status code and the payload (for 429, once the header is read). *)
Lemma handle_response_dispatch (resp : Response.t) (data : pyval) :
  FMSClient.decoded resp = Ok data ->
  object_or_falsy data = true ->
  let sc := Response.status_code resp in
  if (sc =? 200)%Z || (sc =? 201)%Z then FMSClient._handle_response resp = Ok data
  else if (sc =? 204)%Z then FMSClient._handle_response resp = Ok PNone
  else if (sc =? 429)%Z then
    match retry_after_of resp with
    | Ok ra =>
        FMSClient._handle_response resp =
        Raise (FMS (mkRateLimitError (expected_message data sc) (Some sc) data ra))
    | Raise e => FMSClient._handle_response resp = Raise e
    end
  else
    exists e, FMSClient._handle_response resp = Raise (FMS e)
              /\ kind e = taxonomy sc /\ message e = expected_message data sc
              /\ status_code e = Some sc /\ response e = data.
Proof.
  intros Hdec Hd sc. unfold FMSClient._handle_response. rewrite Hdec. cbn [bind].
  change (Response.status_code resp) with sc.
  clearbody sc.
  destruct ((sc =? 200)%Z || (sc =? 201)%Z) eqn:E200; [reflexivity|].
  destruct (sc =? 204)%Z eqn:E204; [reflexivity|].
  destruct (sc =? 429)%Z eqn:E429.
  - apply Z.eqb_eq in E429. subst sc. cbn [Z.eqb Pos.eqb].
    rewrite (detail_or_object_or_falsy data 429 "Rate limit exceeded" Hd eq_refl).
    cbn [bind].
    unfold retry_after_of.
    destruct (header_get (Response.headers resp) "Retry-After") as [s|];
      cbn [set bind]; [|reflexivity].
    destruct (String.eqb s ""); cbn [negb bind]; [reflexivity|].
    destruct (py_int s); reflexivity.
  - destruct (sc =? 400)%Z eqn:E400.
    { assert (Hsc : sc = 400%Z) by (apply Z.eqb_eq; exact E400).
      destruct (errors_object_or_falsy data Hd) as [errors ->]. cbn [bind].
      rewrite (detail_or_object_or_falsy data sc _ Hd) by (rewrite Hsc; reflexivity).
      cbn [bind]. eexists. split; [reflexivity|]. rewrite Hsc. repeat split. }
    destruct (sc =? 401)%Z eqn:E401.
    { assert (Hsc : sc = 401%Z) by (apply Z.eqb_eq; exact E401).
      rewrite (detail_or_object_or_falsy data sc _ Hd) by (rewrite Hsc; reflexivity).
      cbn [bind]. eexists. split; [reflexivity|]. rewrite Hsc. repeat split. }
    destruct (sc =? 403)%Z eqn:E403.
    { assert (Hsc : sc = 403%Z) by (apply Z.eqb_eq; exact E403).
      rewrite (detail_or_object_or_falsy data sc _ Hd) by (rewrite Hsc; reflexivity).
      cbn [bind]. eexists. split; [reflexivity|]. rewrite Hsc. repeat split. }
    destruct (sc =? 404)%Z eqn:E404.
    { assert (Hsc : sc = 404%Z) by (apply Z.eqb_eq; exact E404).
      rewrite (detail_or_object_or_falsy data sc _ Hd) by (rewrite Hsc; reflexivity).
      cbn [bind]. eexists. split; [reflexivity|]. rewrite Hsc. repeat split. }
    destruct (sc =? 409)%Z eqn:E409.
    { assert (Hsc : sc = 409%Z) by (apply Z.eqb_eq; exact E409).
      rewrite (detail_or_object_or_falsy data sc _ Hd) by (rewrite Hsc; reflexivity).
      cbn [bind]. eexists. split; [reflexivity|]. rewrite Hsc. repeat split. }
    assert (Htax : taxonomy sc = if (500 <=? sc)%Z then ServerError else FMSError).
    { unfold taxonomy. rewrite E400, E401, E403, E404, E409, E429. reflexivity. }
    rewrite Z.geb_leb.
    destruct (500 <=? sc)%Z eqn:E500.
    + rewrite (detail_or_object_or_falsy data sc _ Hd)
        by (unfold generic_message; rewrite Htax; reflexivity).
      cbn [bind]. eexists. split; [reflexivity|]. rewrite Htax. repeat split.
    + rewrite (detail_or_object_or_falsy data sc _ Hd)
        by (unfold generic_message; rewrite Htax; reflexivity).
      cbn [bind]. eexists. split; [reflexivity|]. rewrite Htax. repeat split.
Qed.

Lemma detail_or_non_object (data : pyval) (dflt : string) :
  object_or_falsy data = false -> FMSClient.detail_or data dflt = Raise AttributeError.
Proof.
  intros Hd. unfold FMSClient.detail_or.
  destruct data as [| b | z | s | l | d]; simpl in Hd |- *; try discriminate.
  - apply negb_false_iff in Hd. rewrite Hd. reflexivity.
  - apply negb_false_iff in Hd. rewrite Hd. reflexivity.
  - apply negb_false_iff in Hd. rewrite Hd. reflexivity.
  - destruct l; [discriminate|reflexivity].
Qed.

(** On a payload that is truthy and not an object (a non-empty array or
    text, a non-zero number, [true]) every error status ends in the
    [AttributeError] of the missing [get]. *)
Lemma handle_response_non_object (resp : Response.t) (data : pyval) :
  FMSClient.decoded resp = Ok data ->
  object_or_falsy data = false ->
  let sc := Response.status_code resp in
  (sc =? 200)%Z || (sc =? 201)%Z || (sc =? 204)%Z = false ->
  FMSClient._handle_response resp = Raise AttributeError.
Proof.
  intros Hdec Hd sc Hsc. unfold FMSClient._handle_response. rewrite Hdec. cbn [bind].
  change (Response.status_code resp) with sc.
  apply orb_false_iff in Hsc. destruct Hsc as [H200 H204]. rewrite H200, H204.
  assert (Htruthy : truthy data = true).
  { destruct data; simpl in Hd |- *; try discriminate;
      apply negb_false_iff in Hd; exact Hd. }
  assert (Hdict : as_dict data = Raise AttributeError).
  { destruct data; simpl in Hd |- *; try discriminate; reflexivity. }
  rewrite Htruthy, Hdict. cbn [bind].
  repeat rewrite (detail_or_non_object _ _ Hd).
  repeat match goal with
         | |- (if ?b then _ else _) = _ => destruct b
         end; reflexivity.
Qed.

(** An exception of the decoder that is no [ValueError] is not caught: it
    leaves [_handle_response] whatever the status. *)
Lemma handle_response_escape (resp : Response.t) (e : exn) :
  FMSClient.decoded resp = Raise e -> FMSClient._handle_response resp = Raise e.
Proof. intros H. unfold FMSClient._handle_response. rewrite H. reflexivity. Qed.

Lemma decoded_cases (resp : Response.t) :
  (exists data, FMSClient.decoded resp = Ok data)
  \/ (FMSClient.decoded resp = Raise RecursionError
      /\ Response.json resp = TooDeep /\ Response.content resp <> "").
Proof.
  unfold FMSClient.decoded.
  destruct (String.eqb (Response.content resp) "") eqn:Hc; cbn [negb]; [eauto|].
  apply String.eqb_neq in Hc.
  destruct (Response.json resp) as [v| |]; eauto.
Qed.

Example handle_response_job_not_found :
  FMSClient._handle_response job_not_found =
  Raise (FMS (mk_fms_error NotFoundError (PStr "Job not found") (Some 404%Z)
                (PDict [("detail", PStr "Job not found")]) NoExtra)).
Proof. reflexivity. Qed.

Example handle_response_no_content :
  FMSClient._handle_response
    (Response.mk 204 "ignored" (Decoded (PDict [("detail", PStr "x")])) []) = Ok PNone.
Proof. reflexivity. Qed.

Example handle_response_teapot :
  FMSClient._handle_response (Response.mk 418 "" NotJson []) =
  Raise (FMS (mk_fms_error FMSError (PStr "HTTP 418") (Some 418%Z) PNone NoExtra)).
Proof. reflexivity. Qed.

Example handle_response_validation_errors :
  FMSClient._handle_response
    (Response.mk 400 "{...}"
       (Decoded (PDict [("errors", PDict [("jobId", PList [PStr "required"])])])) []) =
  Raise (FMS (mk_fms_error ValidationError (PStr "Validation failed") (Some 400%Z)
                (PDict [("errors", PDict [("jobId", PList [PStr "required"])])])
                (Errors (PDict [("jobId", PList [PStr "required"])])))).
Proof. reflexivity. Qed.

Example handle_response_unparsable_body :
  FMSClient._handle_response (Response.mk 200 "<html>" NotJson []) = Ok PNone.
Proof. reflexivity. Qed.

Example py_int_examples :
  py_int "30" = Ok 30%Z /\ py_int " +1_000 " = Ok 1000%Z /\ py_int "-7" = Ok (-7)%Z
  /\ py_int "" = Raise ValueError /\ py_int "1__0" = Raise ValueError
  /\ py_int "30s" = Raise ValueError
  /\ py_int (String (ascii_of_nat 160) "30") = Ok 30%Z
  /\ py_int (String (ascii_of_nat 28) "30") = Raise ValueError.
Proof. repeat split. Qed.

Example handle_response_deep_body :
  FMSClient._handle_response (Response.mk 200 "[[[[...]]]]" TooDeep [])
  = Raise RecursionError.
Proof. reflexivity. Qed.

Example header_get_ignores_case :
  header_get [("content-type", "application/json"); ("retry-after", "5")] "Retry-After"
  = Some "5".
Proof. reflexivity. Qed.

(** C1, where the code departs from it: a 404 response whose body decodes to
    a non-empty array is truthy and has no [get], so [_handle_response] ends
    in an [AttributeError] and raises no [NotFoundError]. *)
Theorem handle_response_array_body_escapes_taxonomy :
  FMSClient._handle_response not_found_array_body = Raise AttributeError.
Proof. reflexivity. Qed.

Example handle_response_retry_after_30 :
  FMSClient._handle_response (rate_limited [("Retry-After", "30")]) =
  Raise (FMS (mk_fms_error RateLimitError (PStr "Rate limit exceeded") (Some 429%Z) PNone
                (RetryAfter (Some 30%Z)))).
Proof. reflexivity. Qed.

Example handle_response_retry_after_absent :
  FMSClient._handle_response (rate_limited []) =
  Raise (FMS (mk_fms_error RateLimitError (PStr "Rate limit exceeded") (Some 429%Z) PNone
                (RetryAfter None))).
Proof. reflexivity. Qed.

(** C8, where the code departs from it: [int()] refuses a [Retry-After]
    header that is not a number of seconds, and its [ValueError] leaves
    [_handle_response] in place of the [RateLimitError]. *)
Theorem handle_response_retry_after_date_raises_value_error :
  FMSClient._handle_response
    (rate_limited [("Retry-After", "Wed, 21 Oct 2015 07:28:00 GMT")]) = Raise ValueError.
Proof. reflexivity. Qed.

(** ** Requests *)

Lemma drop_none_in (d : dict) (k : string) (v : pyval) :
  In (k, v) (drop_none d) <-> In (k, v) d /\ v <> PNone.
Proof.
  unfold drop_none. rewrite filter_In. cbn [snd].
  split; intros [Hin Hv]; split; try exact Hin.
  - intros ->. discriminate.
  - destruct v; try reflexivity. exfalso. apply Hv. reflexivity.
Qed.

Lemma drop_none_lookup_set (d : dict) (k : string) (v : pyval) :
  lookup d k = Some v -> v <> PNone -> lookup (drop_none d) k = Some v.
Proof.
  induction d as [|[k0 v0] r IH]; simpl; [discriminate|].
  intros Hl Hv. destruct (String.eqb k0 k) eqn:E.
  - injection Hl as ->. destruct v; try (simpl; rewrite E; reflexivity).
    exfalso. apply Hv. reflexivity.
  - destruct (is_not_none v0); simpl; [rewrite E|]; apply IH; assumption.
Qed.

Lemma drop_none_lookup_unset (d : dict) (k : string) :
  (forall v, In (k, v) d -> v = PNone) -> lookup (drop_none d) k = None.
Proof.
  induction d as [|[k0 v0] r IH]; simpl; [reflexivity|].
  intros Hall. destruct (is_not_none v0) eqn:Hv0; simpl.
  - destruct (String.eqb k0 k) eqn:E.
    + apply String.eqb_eq in E. subst k0.
      rewrite (Hall v0 (or_introl eq_refl)) in Hv0. discriminate.
    + apply IH. intros v Hin. apply Hall. right. exact Hin.
  - apply IH. intros v Hin. apply Hall. right. exact Hin.
Qed.

(** C9: [_request] makes one [session.request] call, whatever its outcome,
    and the parameter mapping of that call holds exactly the given pairs
    whose value is not [None], in their order: a key whose value is [None]
    is not in it, a key with a set value is in it with that value. *)
Theorem request_drops_unset_params (rt : Runtime) (method endpoint : string)
    (params : option dict) (data : pyval) (w : world) :
  exists req : Request.t,
    sent (snd (FMSClient._request rt method endpoint params data w)) = (sent w ++ [req])%list
    /\ Request.method req = method
    /\ Request.json req = data
    /\ (params = None <-> Request.params req = None)
    /\ params_items req =
       filter (fun kv => is_not_none (snd kv)) (match params with Some d => d | None => [] end)
    /\ (forall k v, In (k, v) (params_items req) <->
                    In (k, v) (match params with Some d => d | None => [] end) /\ v <> PNone)
    /\ (forall k d, params = Some d -> (forall v, In (k, v) d -> v = PNone) ->
                    lookup (params_items req) k = None)
    /\ (forall k v d, params = Some d -> lookup d k = Some v -> v <> PNone ->
                      lookup (params_items req) k = Some v).
Proof.
  exists (FMSClient.build_request (self w) method endpoint params data).
  assert (Hitems : params_items (FMSClient.build_request (self w) method endpoint params data)
                   = drop_none (match params with Some d => d | None => [] end)).
  { unfold params_items, FMSClient.build_request. cbn [Request.params].
    destruct params as [[|kv d]|]; reflexivity. }
  split.
  { unfold FMSClient._request.
    destruct (net rt (FMSClient.build_request (self w) method endpoint params data));
      reflexivity. }
  split; [reflexivity|]. split; [reflexivity|].
  split.
  { unfold FMSClient.build_request. cbn [Request.params].
    destruct params as [[|kv d]|]; split; intros H; try discriminate; reflexivity. }
  rewrite Hitems.
  split; [reflexivity|].
  split; [intros k v; apply drop_none_in|].
  split.
  - intros k d -> Hall. apply drop_none_lookup_unset. exact Hall.
  - intros k v d -> Hl Hv. apply drop_none_lookup_set; assumption.
Qed.

(** ** Logout *)

(** X20: whenever [logout] returns, the three token fields are cleared; and it
    does return, with the fields cleared and nothing raised, when there is no
    refresh token to invalidate, when the remote call succeeds, and when the
    remote call raises any error of the SDK's taxonomy. *)
Theorem logout_clears_tokens (rt : Runtime) (w : world) :
  (forall u w', FMSClient.logout rt w = (Ok u, w') -> tokens_cleared w')
  /\ (set (_refresh_token (self w)) = false \/ returns_or_raises_fms (fst (invalidation rt w)) ->
      exists w', FMSClient.logout rt w = (Ok tt, w') /\ tokens_cleared w').
Proof.
  unfold FMSClient.logout, mbind, get_self, invalidation, swallow_fms, ret.
  destruct (set (_refresh_token (self w))) eqn:Hset.
  - destruct (FMSClient._request rt "POST" "auth/logout" None
                (PDict [("refreshToken", of_opt_str (_refresh_token (self w)))]) w)
      as [[v|e] w1] eqn:Hreq; cbn [fst].
    + split.
      * intros u w' Hl. injection Hl as _ <-. repeat split.
      * intros _. eexists. split; [reflexivity|repeat split].
    + destruct e; cbn [returns_or_raises_fms].
      * split.
        -- intros u w' Hl. injection Hl as _ <-. repeat split.
        -- intros _. eexists. split; [reflexivity|repeat split].
      * split; [intros u w' Hl; discriminate|intros [H|[]]; discriminate].
      * split; [intros u w' Hl; discriminate|intros [H|[]]; discriminate].
      * split; [intros u w' Hl; discriminate|intros [H|[]]; discriminate].
      * split; [intros u w' Hl; discriminate|intros [H|[]]; discriminate].
      * split; [intros u w' Hl; discriminate|intros [H|[]]; discriminate].
      * split; [intros u w' Hl; discriminate|intros [H|[]]; discriminate].
      * split; [intros u w' Hl; discriminate|intros [H|[]]; discriminate].
  - split.
    + intros u w' Hl. injection Hl as _ <-. repeat split.
    + intros _. eexists. split; [reflexivity|repeat split].
Qed.

Lemma logout_clears_tokens_witness :
  exists w', FMSClient.logout unavailable logged_in = (Ok tt, w') /\ tokens_cleared w'.
Proof.
  exact (proj2 (logout_clears_tokens unavailable logged_in) (or_intror I)).
Defined.

(** C4, where the code departs from it: [logout] catches the errors of the
    taxonomy only.  When the service answers the invalidation with a 429
    whose [Retry-After] is an HTTP date, or with a 404 whose body is a JSON
    array, the [ValueError] or [AttributeError] of the response handler
    leaves [logout] after the one request, and the three token fields stay
    as they were: none of them is cleared. *)
Theorem logout_lets_handler_errors_out :
  let after := mk_world (self logged_in) [logout_request (self logged_in)] (ticks logged_in) in
  FMSClient.logout throttling logged_in = (Raise ValueError, after)
  /\ FMSClient.logout misrouted logged_in = (Raise AttributeError, after)
  /\ _access_token (self after) = Some "access-1"
  /\ _refresh_token (self after) = Some "refresh-1"
  /\ _token_expires_at (self after) = Some epoch
  /\ ~ tokens_cleared after.
Proof.
  cbv zeta. split; [reflexivity|]. split; [reflexivity|]. split; [reflexivity|].
  split; [reflexivity|]. split; [reflexivity|].
  intros [H _]. discriminate H.
Qed.

(** ** Reading the clock *)

Lemma keeps_with_clock {A : Type} (rt : Runtime) (calls : pyval -> bool)
    (f : datetime -> pyval -> result A) (data : pyval) :
  keeps (with_clock rt calls f data).
Proof. intros w. unfold with_clock. cbn [snd]. destruct (calls data); split; reflexivity. Qed.

Lemma keeps_map_st {A : Type} (f : pyval -> M A) (l : list pyval) :
  (forall x, keeps (f x)) -> keeps (map_st f l).
Proof.
  intros Hf. induction l as [|x r IH]; intros w; cbn [map_st snd]; [split; reflexivity|].
  destruct (Hf x w) as [Hs Hn]. destruct (f x w) as [[y|e] w1]; cbn [snd] in *;
    [|split; assumption].
  destruct (IH w1) as [Hs' Hn']. destruct (map_st f r w1) as [[ys|e] w2]; cbn [snd] in *;
    split; congruence.
Qed.

Lemma keeps_each_st {A : Type} (f : pyval -> M A) (response : pyval) :
  (forall x, keeps (f x)) -> keeps (each_st f response).
Proof.
  intros Hf w. unfold each_st. destruct (iterate response) as [its|e];
    [apply keeps_map_st; exact Hf|split; reflexivity].
Qed.

Lemma keeps_from_dict_st {A : Type} (f : pyval -> M A) (data : pyval) :
  (forall x, keeps (f x)) -> keeps (PagedResult.from_dict_st f data).
Proof.
  intros Hf w. unfold PagedResult.from_dict_st.
  destruct (as_dict data) as [d|e]; [|split; reflexivity].
  destruct (iterate (get_default d "items" (PList []))) as [its|e]; [|split; reflexivity].
  pose proof (keeps_map_st f its Hf w) as H.
  destruct (map_st f its w) as [[items|e] w1]; exact H.
Qed.

(** For a factory without effect the two forms of the comprehension, and of
    [PagedResult.from_dict], are one. *)
Lemma map_st_pure {A S : Type} (f : pyval -> result A) (l : list pyval) (s : S) :
  map_st (fun x s0 => (f x, s0)) l s = (map_result f l, s).
Proof.
  induction l as [|x r IH]; [reflexivity|]. cbn [map_st map_result].
  destruct (f x) as [y|e]; [|reflexivity]. rewrite IH. cbn [bind].
  destruct (map_result f r); reflexivity.
Qed.

Lemma from_dict_st_pure {A S : Type} (f : pyval -> result A) (data : pyval) (s : S) :
  PagedResult.from_dict_st (fun x s0 => (f x, s0)) data s = (PagedResult.from_dict f data, s).
Proof.
  unfold PagedResult.from_dict_st, PagedResult.from_dict.
  destruct (as_dict data) as [d|e]; [|reflexivity]. cbn [bind].
  destruct (iterate (get_default d "items" (PList []))) as [its|e]; [|reflexivity].
  cbn [bind]. rewrite map_st_pure. destruct (map_result f its); reflexivity.
Qed.

(** ** Enumeration-typed arguments *)

Section Coercion.
Context {E A : Type} `{PyEnum E}.
Hypothesis value_round_trip : forall m : E, of_value (PStr (value m)) = Ok m.
Variable k : E -> M A.

Lemma coerce_member_or_raw : member_or_raw (fun x => x' <~ lift (coerce x) ;; k x').
Proof.
  intros m w. unfold mbind, lift, coerce. rewrite value_round_trip. reflexivity.
Qed.

Lemma coerce_validates_raw : validates_raw (fun x => x' <~ lift (coerce x) ;; k x').
Proof.
  intros s w Hno. unfold mbind, lift, coerce. rewrite (of_value_invalid s Hno).
  reflexivity.
Qed.
End Coercion.

(** C2, as the code has it: [create], [heartbeat], [register], [start] and
    [complete] take a member and its raw string alike and refuse any other
    string with the enumeration's [ValueError] before a request is made;
    [search] takes a member and its raw string alike too, but checks nothing:
    whatever the raw string, it makes its request with that string as the
    [level] parameter. *)
Theorem enum_arguments (rt : Runtime) :
  (forall message job_id execution_id category correlation_id exception properties,
      let op := fun level => LogClient.create rt message level job_id execution_id
                               category correlation_id exception properties in
      member_or_raw op /\ validates_raw op)
  /\ (forall agent_version system_info,
      let op := fun status => ServerClient.heartbeat rt status agent_version system_info in
      member_or_raw op /\ validates_raw op)
  /\ (forall job_id display_name description schedule timeout_minutes tags,
      let op := fun priority => JobClient.register rt job_id display_name description
                                  schedule priority timeout_minutes tags in
      member_or_raw op /\ validates_raw op)
  /\ (forall job_id triggered_by parameters,
      let op := fun trigger_type => ExecutionClient.start rt job_id trigger_type
                                      triggered_by parameters in
      member_or_raw op /\ validates_raw op)
  /\ (forall execution_id output_message error_message,
      let op := fun status => ExecutionClient.complete rt execution_id status
                                output_message error_message in
      member_or_raw op /\ validates_raw op)
  /\ (forall server_name job_id start_date end_date page page_size,
      let op := fun level => LogClient.search rt server_name job_id (Some level)
                               start_date end_date page page_size in
      member_or_raw op
      /\ forall (s : string) (w : world),
           sent (snd (op (Raw s) w)) =
           (sent w ++ [search_request rt (self w) server_name job_id s
                         start_date end_date page page_size])%list).
Proof.
  split; [|split; [|split; [|split; [|split]]]];
    try (intros; split;
         [apply coerce_member_or_raw; intros m; destruct m; reflexivity
         |apply coerce_validates_raw]).
  intros server_name job_id start_date end_date page page_size op. split.
  - intros m w. reflexivity.
  - intros s w. unfold op, LogClient.search, mbind, FMSClient._request, search_request.
    cbn [LogClient.level_param].
    match goal with
    | |- context [net rt ?req] => destruct (net rt req) as [resp| | |]
    end; cbn [sent snd]; try reflexivity.
    destruct (FMSClient._handle_response resp) as [v|e]; [|reflexivity].
    match goal with
    | |- sent (snd (PagedResult.from_dict_st ?f v ?w1)) = _ =>
        rewrite (proj2 (keeps_from_dict_st f v (keeps_with_clock _ _ _) w1))
    end.
    reflexivity.
Qed.

Lemma enum_arguments_witness :
  LogClient.create unavailable "started" (Raw "Verbose") None None None None None PNone
    logged_in = (Raise ValueError, logged_in)
  /\ ExecutionClient.complete unavailable "42" (Raw "Success") None None logged_in =
     ExecutionClient.complete unavailable "42" (Member ExecutionStatus.SUCCESS) None None
       logged_in.
Proof.
  pose proof (enum_arguments unavailable) as [Hcreate [_ [_ [_ [Hcomplete _]]]]].
  split.
  - apply (proj2 (Hcreate "started" None None None None None PNone)).
    intros m; destruct m; discriminate.
  - exact (proj1 (Hcomplete "42" None None) ExecutionStatus.SUCCESS logged_in).
Defined.

(** ["Verbose"] is no log level, yet [search] raises nothing for it: the
    request goes out with [level=Verbose] and the page comes back. *)
Lemma search_forwards_unknown_level :
  of_value (PStr "Verbose") = @Raise LogLevel.t ValueError
  /\ fst (LogClient.search answering None None (Some (Raw "Verbose")) None None 1 50
            logged_in)
     = Ok (PagedResult.mk [] (PInt 1) (PInt 20) (PInt 0) (PInt 0))
  /\ map Request.params
       (sent (snd (LogClient.search answering None None (Some (Raw "Verbose")) None None
                     1 50 logged_in)))
     = [Some [("level", PStr "Verbose"); ("page", PInt 1); ("pageSize", PInt 50)]].
Proof. repeat split. Qed.

(** * Further properties of the client and the models *)

(** ** Headers *)

(** X1: the credential headers are exclusive: a configured API key is sent as
    [X-Api-Key] and suppresses the bearer token; without a key, an access
    token is sent as [Authorization: Bearer ...]; an empty key or token counts
    as none.  The two content headers are always there, and nothing else. *)
Theorem get_headers_credentials (c : fms_client) :
  let hs := FMSClient._get_headers c in
  request_header hs "Accept" = Some "application/json"
  /\ request_header hs "Content-Type" = Some "application/json"
  /\ request_header hs "X-Api-Key" = (if set (api_key c) then api_key c else None)
  /\ request_header hs "Authorization" =
     (if set (api_key c) then None
      else if set (_access_token c)
           then option_map (fun t => "Bearer " ++ t) (_access_token c)
           else None)
  /\ (List.length hs <= 3)%nat
  /\ (forall k v, In (k, v) hs ->
        In k ["Accept"; "Content-Type"; "X-Api-Key"; "Authorization"]).
Proof.
  intros hs. subst hs. unfold FMSClient._get_headers.
  destruct (api_key c) as [k|] eqn:Hk; cbn [set].
  - destruct (negb (String.eqb k "")) eqn:Hset.
    + cbn. repeat split; try lia.
      intros k0 v [H|[H|[H|[]]]]; injection H as <- _; simpl; tauto.
    + destruct (_access_token c) as [t|] eqn:Ht; cbn [set].
      * destruct (negb (String.eqb t "")); cbn; repeat split; try lia.
        -- intros k0 v [H|[H|[H|[]]]]; injection H as <- _; simpl; tauto.
        -- intros k0 v [H|[H|[]]]; injection H as <- _; simpl; tauto.
      * cbn. repeat split; try lia.
        intros k0 v [H|[H|[]]]; injection H as <- _; simpl; tauto.
  - destruct (_access_token c) as [t|] eqn:Ht; cbn [set].
    + destruct (negb (String.eqb t "")); cbn; repeat split; try lia.
      * intros k0 v [H|[H|[H|[]]]]; injection H as <- _; simpl; tauto.
      * intros k0 v [H|[H|[]]]; injection H as <- _; simpl; tauto.
    + cbn. repeat split; try lia.
      intros k0 v [H|[H|[]]]; injection H as <- _; simpl; tauto.
Qed.

(** ** Every outcome of the response handler *)

Lemma py_int_raises_value_error (s : string) (e : exn) :
  py_int s = Raise e -> e = ValueError.
Proof.
  unfold py_int.
  destruct (match strip (list_ascii_of_string s) with
            | [] => digits (strip (list_ascii_of_string s)) 0 false
            | c :: r => _
            end); intros H.
  - destruct (count_digits (strip (list_ascii_of_string s)) <=? max_str_digits)%nat;
      [discriminate|]. injection H as <-. reflexivity.
  - injection H as <-. reflexivity.
Qed.

Lemma retry_after_raises_value_error (resp : Response.t) (e : exn) :
  retry_after_of resp = Raise e -> e = ValueError.
Proof.
  unfold retry_after_of.
  destruct (header_get (Response.headers resp) "Retry-After") as [s|]; [|discriminate].
  destruct (String.eqb s ""); [discriminate|].
  destruct (py_int s) as [n|e'] eqn:Hint; cbn [bind]; [discriminate|].
  intros H. injection H as <-. exact (py_int_raises_value_error s e' Hint).
Qed.

Lemma handle_response_returns (resp : Response.t) (v : pyval) :
  FMSClient._handle_response resp = Ok v ->
  returns_payload (Response.status_code resp) = true.
Proof.
  intros Hv. destruct (returns_payload (Response.status_code resp)) eqn:Hret;
    [reflexivity|].
  destruct (decoded_cases resp) as [[data Hdec] | [Hdec _]];
    [|rewrite (handle_response_escape resp _ Hdec) in Hv; discriminate].
  destruct (object_or_falsy data) eqn:Hobj.
  - pose proof (handle_response_dispatch resp data Hdec Hobj) as Hd. cbn zeta in Hd.
    unfold returns_payload in Hret. apply orb_false_iff in Hret.
    destruct Hret as [H200 H204]. rewrite H200, H204 in Hd.
    destruct (Response.status_code resp =? 429)%Z.
    + destruct (retry_after_of resp); rewrite Hd in Hv; discriminate.
    + destruct Hd as [e [Hd _]]. rewrite Hd in Hv. discriminate.
  - rewrite (handle_response_non_object resp data Hdec Hobj Hret) in Hv. discriminate.
Qed.

Lemma handle_response_raises (resp : Response.t) (e : exn) :
  FMSClient._handle_response resp = Raise e ->
  (e = RecursionError /\ FMSClient.decoded resp = Raise RecursionError)
  \/ (returns_payload (Response.status_code resp) = false
      /\ (e = AttributeError \/ e = ValueError
          \/ exists f, e = FMS f /\ status_code f = Some (Response.status_code resp)
                       /\ kind f = taxonomy (Response.status_code resp))).
Proof.
  intros He.
  destruct (decoded_cases resp) as [[data Hdec] | [Hdec _]].
  2:{ left. rewrite (handle_response_escape resp _ Hdec) in He. injection He as <-.
      split; [reflexivity|exact Hdec]. }
  right.
  assert (Hret : returns_payload (Response.status_code resp) = false).
  { destruct (returns_payload (Response.status_code resp)) eqn:Hret; [|reflexivity].
    exfalso. unfold FMSClient._handle_response, returns_payload in *.
    rewrite Hdec in He. cbn [bind] in He.
    destruct ((Response.status_code resp =? 200)%Z || (Response.status_code resp =? 201)%Z);
      [discriminate|].
    cbn [orb] in Hret. rewrite Hret in He. discriminate. }
  split; [exact Hret|].
  destruct (object_or_falsy data) eqn:Hobj.
  - pose proof (handle_response_dispatch resp data Hdec Hobj) as Hd. cbn zeta in Hd.
    unfold returns_payload in Hret. apply orb_false_iff in Hret.
    destruct Hret as [H200 H204]. rewrite H200, H204 in Hd.
    destruct (Response.status_code resp =? 429)%Z eqn:H429.
    + apply Z.eqb_eq in H429.
      destruct (retry_after_of resp) as [ra|e'] eqn:Hra; rewrite Hd in He;
        injection He as <-.
      * right. right. eexists. split; [reflexivity|]. rewrite H429. split; reflexivity.
      * right. left. exact (retry_after_raises_value_error resp e' Hra).
    + destruct Hd as [f [Hd [Hk [_ [Hs _]]]]]. rewrite Hd in He. injection He as <-.
      right. right. exists f. repeat split; assumption.
  - rewrite (handle_response_non_object resp data Hdec Hobj Hret) in He.
    injection He as <-. left. reflexivity.
Qed.

(** X2: a response whose body cannot be decoded for its depth makes
    [_handle_response] raise the decoder's [RecursionError], whatever the
    status.  With the payload [data] decoded ([None] for an empty body or one
    that is not JSON), it ends in one of four ways: it returns (the payload
    on 200 and 201, nothing on 204); it raises the taxonomy's error for the
    status, carrying the expected message, the status and the payload; it
    raises [AttributeError], exactly when an error status comes with a truthy
    payload that is not an object; or it raises [ValueError], only on a 429
    whose [Retry-After] header [int()] refuses.  It raises nothing else. *)
Theorem handle_response_outcomes (resp : Response.t) :
  let sc := Response.status_code resp in
  match FMSClient.decoded resp with
  | Raise e =>
      e = RecursionError /\ Response.json resp = TooDeep /\ Response.content resp <> ""
      /\ FMSClient._handle_response resp = Raise RecursionError
  | Ok data =>
      match FMSClient._handle_response resp with
      | Ok v =>
          (((sc = 200 \/ sc = 201)%Z /\ v = data) \/ (sc = 204%Z /\ v = PNone))
      | Raise (FMS e) =>
          returns_payload sc = false /\ object_or_falsy data = true
          /\ kind e = taxonomy sc /\ message e = expected_message data sc
          /\ status_code e = Some sc /\ response e = data
      | Raise AttributeError =>
          returns_payload sc = false /\ object_or_falsy data = false
      | Raise ValueError =>
          sc = 429%Z /\ object_or_falsy data = true
          /\ retry_after_of resp = Raise ValueError
      | Raise _ => False
      end
  end.
Proof.
  intros sc.
  destruct (decoded_cases resp) as [[data Hdec] | [Hdec [Hjson Hcontent]]].
  2:{ rewrite Hdec. repeat split; try assumption.
      exact (handle_response_escape resp _ Hdec). }
  rewrite Hdec.
  destruct (returns_payload sc) eqn:Hret.
  - unfold FMSClient._handle_response. rewrite Hdec. cbn [bind]. fold sc.
    unfold returns_payload in Hret.
    destruct ((sc =? 200)%Z || (sc =? 201)%Z) eqn:H200.
    + left. split; [|reflexivity].
      apply orb_true_iff in H200. destruct H200 as [H|H]; apply Z.eqb_eq in H; tauto.
    + cbn [orb] in Hret. rewrite Hret. right. split; [|reflexivity].
      apply Z.eqb_eq. exact Hret.
  - destruct (object_or_falsy data) eqn:Hobj.
    + pose proof (handle_response_dispatch resp data Hdec Hobj) as Hd. cbn zeta in Hd.
      fold sc in Hd.
      unfold returns_payload in Hret. apply orb_false_iff in Hret.
      destruct Hret as [H200 H204]. rewrite H200, H204 in Hd.
      destruct (sc =? 429)%Z eqn:H429.
      * destruct (retry_after_of resp) as [ra|e] eqn:Hra; rewrite Hd.
        -- apply Z.eqb_eq in H429.
           repeat split; try reflexivity; rewrite H429; reflexivity.
        -- pose proof (retry_after_raises_value_error resp e Hra) as He. subst e.
           apply Z.eqb_eq in H429. repeat split; assumption.
      * destruct Hd as [e [-> [Hk [Hm [Hs Hr]]]]].
        repeat split; assumption.
    + assert (Hr : FMSClient._handle_response resp = Raise AttributeError).
      { apply (handle_response_non_object resp data Hdec Hobj). exact Hret. }
      rewrite Hr. split; reflexivity.
Qed.

(** X3: A 400 response carries the field-level errors of its payload, and an
    empty mapping when the payload has none (no ["errors"] key, a null or
    empty one, or no payload at all): the attribute is never [None]. *)
Theorem validation_error_fields (resp : Response.t) (data : pyval) :
  Response.status_code resp = 400%Z ->
  FMSClient.decoded resp = Ok data ->
  object_or_falsy data = true ->
  FMSClient._handle_response resp =
  Raise (FMS (mk_fms_error ValidationError
                (expected_message data 400) (Some 400%Z) data
                (Errors (match data with
                         | PDict d => if truthy (get d "errors") then get d "errors"
                                      else PDict []
                         | _ => PDict []
                         end)))).
Proof.
  intros Hsc Hdec Hobj. unfold FMSClient._handle_response. rewrite Hdec, Hsc.
  cbn [bind Z.eqb Pos.eqb orb].
  rewrite (detail_or_object_or_falsy _ 400 "Validation failed" Hobj eq_refl).
  destruct data as [| b | z | s | l | d]; simpl in Hobj |- *;
    try reflexivity.
  - destruct b; [discriminate|reflexivity].
  - apply negb_true_iff in Hobj. rewrite Hobj. reflexivity.
  - apply negb_true_iff in Hobj. rewrite Hobj. reflexivity.
  - destruct l; [reflexivity|discriminate].
  - destruct d as [|kv d']; [reflexivity|]. reflexivity.
Qed.

Lemma validation_error_fields_witness :
  FMSClient._handle_response
    (Response.mk 400 "{...}" (Decoded (PDict [("detail", PStr "Bad job")])) []) =
  Raise (FMS (mk_fms_error ValidationError (PStr "Bad job") (Some 400%Z)
                (PDict [("detail", PStr "Bad job")]) (Errors (PDict [])))).
Proof.
  exact (validation_error_fields
           (Response.mk 400 "{...}" (Decoded (PDict [("detail", PStr "Bad job")])) [])
           (PDict [("detail", PStr "Bad job")]) eq_refl eq_refl eq_refl).
Defined.

(** ** Every outcome of a request *)

Lemma request_state (rt : Runtime) (method endpoint : string) (params : option dict)
    (data : pyval) (w : world) :
  snd (FMSClient._request rt method endpoint params data w) =
  mk_world (self w)
    (sent w ++ [FMSClient.build_request (self w) method endpoint params data])%list
    (ticks w).
Proof. unfold FMSClient._request. destruct (net rt _); reflexivity. Qed.

(** X4: [_request] makes exactly one [session.request] call and changes
    nothing else of the state.  It returns only on a response with status
    200, 201 or 204.  An error of the taxonomy that it raises either has no
    status code and no response, is of the connection, timeout or base kind,
    and stands for a failure of the transport; or it has the status code of
    the response that came, and is of the kind the taxonomy keys to it. *)
Theorem request_outcomes (rt : Runtime) (method endpoint : string)
    (params : option dict) (data : pyval) (w : world) :
  let req := FMSClient.build_request (self w) method endpoint params data in
  snd (FMSClient._request rt method endpoint params data w) =
    mk_world (self w) (sent w ++ [req])%list (ticks w)
  /\ match fst (FMSClient._request rt method endpoint params data w) with
     | Ok _ =>
         exists resp, net rt req = Responded resp
                      /\ returns_payload (Response.status_code resp) = true
     | Raise (FMS f) =>
         (status_code f = None /\ response f = PNone
          /\ In (kind f) [ConnectionError; TimeoutError; FMSError]
          /\ forall resp, net rt req <> Responded resp)
         \/ (exists resp, net rt req = Responded resp
                          /\ returns_payload (Response.status_code resp) = false
                          /\ status_code f = Some (Response.status_code resp)
                          /\ kind f = taxonomy (Response.status_code resp))
     | Raise _ => True
     end.
Proof.
  intros req. split; [apply request_state|].
  unfold FMSClient._request. fold req.
  destruct (net rt req) as [resp|e| |e] eqn:Hnet; cbn [fst].
  - destruct (FMSClient._handle_response resp) as [v|e] eqn:Hr.
    + exists resp. split; [reflexivity|]. exact (handle_response_returns resp v Hr).
    + destruct e as [f| | | | | | |]; try exact I.
      destruct (handle_response_raises resp (FMS f) Hr)
        as [[H _] | [Hret [H | [H | [f' [H [Hs Hk]]]]]]]; try discriminate.
      injection H as <-. right. exists resp. repeat split; assumption.
  - left. repeat split; [simpl; tauto|discriminate].
  - left. repeat split; [simpl; tauto|discriminate].
  - left. repeat split; [simpl; tauto|discriminate].
Qed.

(** ** What the sub-clients leave alone *)

Section Sends.
Context {A B : Type}.

Lemma sends_ret (a : A) : sends 0 (ret a).
Proof. intros w. split; [reflexivity|]. exists []. rewrite app_nil_r. split; [reflexivity|simpl; lia]. Qed.

Lemma sends_lift (r : result A) : sends 0 (lift r).
Proof. intros w. split; [reflexivity|]. exists []. rewrite app_nil_r. split; [reflexivity|simpl; lia]. Qed.

Lemma sends_bind (n k : nat) (m : M A) (f : A -> M B) :
  sends n m -> (forall a, sends k (f a)) -> sends (n + k) (mbind m f).
Proof.
  intros Hm Hf w. unfold mbind. destruct (Hm w) as [Hs [l [Hl Hn]]].
  destruct (m w) as [[a|e] w1]; cbn [snd] in *.
  - destruct (Hf a w1) as [Hs' [l' [Hl' Hk]]]. split; [congruence|].
    exists (l ++ l')%list. rewrite Hl', Hl, app_assoc. split; [reflexivity|].
    rewrite length_app. lia.
  - split; [exact Hs|]. exists l. split; [exact Hl|lia].
Qed.

Lemma sends_before (n : nat) (m : M A) (f : A -> M B) :
  sends 0 m -> (forall a, sends n (f a)) -> sends n (mbind m f).
Proof. intros Hm Hf. exact (sends_bind 0 n m f Hm Hf). Qed.

Lemma sends_after (n : nat) (m : M A) (f : A -> M B) :
  sends n m -> (forall a, sends 0 (f a)) -> sends n (mbind m f).
Proof.
  intros Hm Hf. pose proof (sends_bind n 0 m f Hm Hf) as H.
  rewrite Nat.add_0_r in H. exact H.
Qed.
End Sends.

Lemma sends_utcnow (rt : Runtime) : sends 0 (utcnow rt).
Proof. intros w. split; [reflexivity|]. exists []. cbn. rewrite app_nil_r. split; [reflexivity|lia]. Qed.

Lemma sends_get_self : sends 0 get_self.
Proof. intros w. split; [reflexivity|]. exists []. cbn. rewrite app_nil_r. split; [reflexivity|lia]. Qed.

Lemma sends_request (rt : Runtime) (method endpoint : string) (params : option dict)
    (data : pyval) : sends 1 (FMSClient._request rt method endpoint params data).
Proof.
  intros w. unfold FMSClient._request.
  destruct (net rt _); cbn [snd self sent]; (split; [reflexivity|]);
    eexists; (split; [reflexivity|simpl; lia]).
Qed.

Lemma sends_keeps {A : Type} (m : M A) : keeps m -> sends 0 m.
Proof.
  intros Hm w. destruct (Hm w) as [Hs Hn]. split; [exact Hs|].
  exists []. rewrite app_nil_r. split; [exact Hn|simpl; lia].
Qed.

(** Closes [sends 1 op] for an operation built from the monad's steps around
    one call of [_request]. *)
Ltac keeps_clock :=
  first [ apply keeps_with_clock
        | apply keeps_each_st; intros ?; apply keeps_with_clock
        | apply keeps_from_dict_st; intros ?; apply keeps_with_clock ].

Ltac sends_zero :=
  repeat first
    [ apply sends_ret | apply sends_lift | apply sends_utcnow | apply sends_get_self
    | apply sends_keeps; keeps_clock
    | apply sends_before; [|intros ?] ].

Ltac sends_one :=
  repeat first
    [ apply sends_request
    | apply sends_after; [apply sends_request|intros ?; sends_zero]
    | apply sends_before;
      [first [apply sends_lift | apply sends_utcnow | apply sends_get_self]|intros ?] ].

(** X5: no operation of a sub-client touches the client object (its URL, key,
    server name and tokens stay as they are), and none makes more than one
    HTTP request: there is no retry, refresh or second call at this layer,
    whatever the outcome. *)
Theorem sub_clients_send_at_most_once (rt : Runtime) :
  (forall message level job_id execution_id category correlation_id exception properties,
      sends 1 (LogClient.create rt message level job_id execution_id category
                 correlation_id exception properties))
  /\ (forall message job_id execution_id category correlation_id exception properties,
      sends 1 (LogClient.trace rt message job_id execution_id category correlation_id
                 exception properties)
      /\ sends 1 (LogClient.debug rt message job_id execution_id category correlation_id
                    exception properties)
      /\ sends 1 (LogClient.info rt message job_id execution_id category correlation_id
                    exception properties)
      /\ sends 1 (LogClient.warning rt message job_id execution_id category correlation_id
                    exception properties)
      /\ sends 1 (LogClient.error rt message exception job_id execution_id category
                    correlation_id properties)
      /\ sends 1 (LogClient.critical rt message exception job_id execution_id category
                    correlation_id properties))
  /\ (forall log_id, sends 1 (LogClient.get rt log_id))
  /\ (forall server_name job_id level start_date end_date page page_size,
      sends 1 (LogClient.search rt server_name job_id level start_date end_date page
                 page_size))
  /\ (forall status agent_version system_info,
      sends 1 (ServerClient.heartbeat rt status agent_version system_info))
  /\ (forall server_name, sends 1 (ServerClient.get rt server_name))
  /\ sends 1 (ServerClient.list rt)
  /\ (forall server_name enable, sends 1 (ServerClient.set_maintenance rt server_name enable))
  /\ (forall job_id display_name description schedule priority timeout_minutes tags,
      sends 1 (JobClient.register rt job_id display_name description schedule priority
                 timeout_minutes tags))
  /\ (forall job_id, sends 1 (JobClient.get rt job_id)
                     /\ sends 1 (JobClient.activate rt job_id)
                     /\ sends 1 (JobClient.deactivate rt job_id))
  /\ (forall server_name, sends 1 (JobClient.list rt server_name))
  /\ (forall job_id trigger_type triggered_by parameters,
      sends 1 (ExecutionClient.start rt job_id trigger_type triggered_by parameters))
  /\ (forall execution_id status output_message error_message,
      sends 1 (ExecutionClient.complete rt execution_id status output_message
                 error_message))
  /\ (forall execution_id reason, sends 1 (ExecutionClient.cancel rt execution_id reason))
  /\ (forall execution_id, sends 1 (ExecutionClient.get rt execution_id))
  /\ sends 1 (ExecutionClient.get_running rt)
  /\ (forall alert_id, sends 1 (AlertClient.get rt alert_id))
  /\ sends 1 (AlertClient.list rt)
  /\ sends 1 (AlertClient.get_active_instances rt)
  /\ (forall instance_id notes, sends 1 (AlertClient.acknowledge rt instance_id notes)
                                /\ sends 1 (AlertClient.resolve rt instance_id notes))
  /\ sends 1 (FMSClient.get_dashboard rt).
Proof.
  assert (Hcreate : forall message level job_id execution_id category correlation_id
                      exception properties,
             sends 1 (LogClient.create rt message level job_id execution_id category
                        correlation_id exception properties)).
  { intros. unfold LogClient.create. sends_one. }
  repeat match goal with |- _ /\ _ => split end; intros;
    try exact (Hcreate _ _ _ _ _ _ _ _);
    try (repeat match goal with |- _ /\ _ => split end;
         first [ exact (Hcreate _ _ _ _ _ _ _ _)
               | unfold LogClient.get, LogClient.search, ServerClient.heartbeat,
                   ServerClient.get, ServerClient.list, ServerClient.set_maintenance,
                   JobClient.register, JobClient.get, JobClient.activate,
                   JobClient.deactivate, ExecutionClient.start, ExecutionClient.complete,
                   ExecutionClient.cancel, ExecutionClient.get, ExecutionClient.get_running,
                   AlertClient.get, AlertClient.list, AlertClient.get_active_instances,
                   AlertClient.acknowledge, AlertClient.resolve, FMSClient.get_dashboard;
                 sends_one ]).
  match goal with
  | |- sends 1 (JobClient.list _ ?s) =>
      unfold JobClient.list; destruct (set s); sends_one
  end.
Qed.

(** ** The severity shortcuts *)

Lemma create_member_logs_at (rt : Runtime) (message : string) (m : LogLevel.t)
    (job_id execution_id category correlation_id exception : option string)
    (properties : pyval) :
  logs_at (value m) message exception
    (LogClient.create rt message (Member m) job_id execution_id category correlation_id
       exception properties).
Proof.
  intros w. unfold LogClient.create, mbind, lift, coerce, utcnow, get_self,
    FMSClient._request.
  cbn [self sent ticks].
  match goal with
  | |- context [net rt ?r] => destruct (net rt r) as [resp| | |]
  end.
  - destruct (FMSClient._handle_response resp) as [v|e].
    + unfold with_clock. destruct (LogEntry.calls_utcnow v);
        eexists; eexists; cbn [snd sent]; repeat split.
    + eexists; eexists; cbn [snd sent]; repeat split.
  - eexists; eexists; cbn [snd sent]; repeat split.
  - eexists; eexists; cbn [snd sent]; repeat split.
  - eexists; eexists; cbn [snd sent]; repeat split.
Qed.

(** X7: each severity shortcut makes one log-creation request whose [level] is
    exactly that severity's raw string, whatever the other arguments and
    whatever the service answers; [error] and [critical] put the text of a
    given exception into the body, and a null when none is given. *)
Theorem log_shortcuts_levels (rt : Runtime) (message : string)
    (job_id execution_id category correlation_id exception : option string)
    (properties : pyval) :
  logs_at "Trace" message exception
    (LogClient.trace rt message job_id execution_id category correlation_id exception
       properties)
  /\ logs_at "Debug" message exception
       (LogClient.debug rt message job_id execution_id category correlation_id exception
          properties)
  /\ logs_at "Information" message exception
       (LogClient.info rt message job_id execution_id category correlation_id exception
          properties)
  /\ logs_at "Warning" message exception
       (LogClient.warning rt message job_id execution_id category correlation_id exception
          properties)
  /\ logs_at "Error" message exception
       (LogClient.error rt message exception job_id execution_id category correlation_id
          properties)
  /\ logs_at "Critical" message exception
       (LogClient.critical rt message exception job_id execution_id category
          correlation_id properties).
Proof.
  repeat split.
  - exact (create_member_logs_at rt message LogLevel.TRACE _ _ _ _ _ _).
  - exact (create_member_logs_at rt message LogLevel.DEBUG _ _ _ _ _ _).
  - exact (create_member_logs_at rt message LogLevel.INFORMATION _ _ _ _ _ _).
  - exact (create_member_logs_at rt message LogLevel.WARNING _ _ _ _ _ _).
  - exact (create_member_logs_at rt message LogLevel.ERROR _ _ _ _ _ _).
  - exact (create_member_logs_at rt message LogLevel.CRITICAL _ _ _ _ _ _).
Qed.

(** ** More on logout *)

Lemma request_raises (rt : Runtime) (method endpoint : string) (params : option dict)
    (data : pyval) (w : world) (e : exn) :
  fst (FMSClient._request rt method endpoint params data w) = Raise e ->
  e = RecursionError \/ e = AttributeError \/ e = ValueError \/ exists f, e = FMS f.
Proof.
  unfold FMSClient._request.
  destruct (net rt _) as [resp|e0| |e0]; cbn [fst]; intros He.
  - destruct (handle_response_raises resp e He) as [[H _] | [_ [H|[H|[f [H _]]]]]]; eauto.
  - injection He as <-. eauto 6.
  - injection He as <-. eauto 6.
  - injection He as <-. eauto 6.
Qed.

Lemma logout_cases (rt : Runtime) (w : world) :
  let c := self w in
  let cleared := mk_client (base_url c) (api_key c) (server_name c) (timeout c)
                   None None None in
  (set (_refresh_token c) = false
   /\ FMSClient.logout rt w = (Ok tt, mk_world cleared (sent w) (ticks w)))
  \/ (set (_refresh_token c) = true
      /\ ((FMSClient.logout rt w =
           (Ok tt, mk_world cleared (sent w ++ [logout_request c])%list (ticks w)))
          \/ (exists e, FMSClient.logout rt w =
                        (Raise e, mk_world c (sent w ++ [logout_request c])%list (ticks w))
                        /\ forall f, e <> FMS f))).
Proof.
  intros c cleared. unfold FMSClient.logout, mbind, get_self, swallow_fms, ret,
    FMSClient.clear_tokens.
  fold c. destruct (set (_refresh_token c)) eqn:Hset.
  - right. split; [reflexivity|].
    pose proof (request_state rt "POST" "auth/logout" None
                  (PDict [("refreshToken", of_opt_str (_refresh_token c))]) w) as Hw.
    pose proof (request_raises rt "POST" "auth/logout" None
                  (PDict [("refreshToken", of_opt_str (_refresh_token c))]) w) as Hr.
    destruct (FMSClient._request rt "POST" "auth/logout" None
                (PDict [("refreshToken", of_opt_str (_refresh_token c))]) w)
      as [[v|e] w1]; cbn [fst snd] in Hw, Hr; subst w1.
    + left. reflexivity.
    + destruct (Hr e eq_refl) as [-> | [-> | [-> | [f ->]]]].
      * right. eexists. split; [reflexivity|]. discriminate.
      * right. eexists. split; [reflexivity|]. discriminate.
      * right. eexists. split; [reflexivity|]. discriminate.
      * left. reflexivity.
  - left. split; reflexivity.
Qed.

(** X8: [logout] makes no request when there is no refresh token, and otherwise
    exactly one: a [POST] to [auth/logout] whose body is the refresh token and
    whose headers are those of the client before its tokens are cleared.  In
    every outcome the URL, API key, server name and timeout of the client stay
    as they were; and when [logout] raises, so do the tokens, and what it
    raises is no error of the taxonomy (those it swallows). *)
Theorem logout_effects (rt : Runtime) (w : world) :
  let w' := snd (FMSClient.logout rt w) in
  sent w' = (if set (_refresh_token (self w))
             then (sent w ++ [logout_request (self w)])%list else sent w)
  /\ base_url (self w') = base_url (self w)
  /\ api_key (self w') = api_key (self w)
  /\ server_name (self w') = server_name (self w)
  /\ timeout (self w') = timeout (self w)
  /\ (forall e, fst (FMSClient.logout rt w) = Raise e ->
        self w' = self w /\ forall f, e <> FMS f).
Proof.
  intros w'. subst w'.
  destruct (logout_cases rt w) as [[Hset Hl] | [Hset [Hl | [e [Hl He]]]]];
    rewrite Hl, Hset; cbn [fst snd self sent base_url api_key server_name timeout].
  - repeat split; discriminate.
  - repeat split; discriminate.
  - split; [reflexivity|]. split; [reflexivity|]. split; [reflexivity|].
    split; [reflexivity|]. split; [reflexivity|].
    intros e1 H1. injection H1 as <-. split; [reflexivity|exact He].
Qed.

Lemma logout_effects_witness :
  self (snd (FMSClient.logout throttling logged_in)) = self logged_in
  /\ forall f, ValueError <> FMS f.
Proof.
  exact (proj2 (proj2 (proj2 (proj2 (proj2 (logout_effects throttling logged_in)))))
           ValueError eq_refl).
Defined.

(** X9: logging out twice is logging out once: after a [logout] that returned, a
    second one makes no request, raises nothing and leaves the state as it
    is. *)
Theorem logout_twice (rt : Runtime) (w w1 : world) (u : unit) :
  FMSClient.logout rt w = (Ok u, w1) -> FMSClient.logout rt w1 = (Ok tt, w1).
Proof.
  intros Hl.
  assert (Hw1 : exists c s t, w1 = mk_world (mk_client (base_url c) (api_key c)
                                               (server_name c) (timeout c) None None None)
                                     s t).
  { destruct (logout_cases rt w) as [[_ H] | [_ [H | [e [H _]]]]];
      rewrite H in Hl; try discriminate; injection Hl as _ <-; eauto. }
  destruct Hw1 as [c [s [t ->]]]. reflexivity.
Qed.

Lemma logout_twice_witness :
  FMSClient.logout unavailable (snd (FMSClient.logout unavailable logged_in)) =
  (Ok tt, snd (FMSClient.logout unavailable logged_in)).
Proof.
  exact (logout_twice unavailable logged_in _ tt eq_refl).
Defined.

(** X10: after a [logout] that returned, the client sends no bearer token any
    more; a configured API key is not a session credential and is still
    sent. *)
Theorem logout_drops_bearer_keeps_key (rt : Runtime) (w w1 : world) (u : unit) :
  FMSClient.logout rt w = (Ok u, w1) ->
  request_header (FMSClient._get_headers (self w1)) "Authorization" = None
  /\ request_header (FMSClient._get_headers (self w1)) "X-Api-Key" =
     request_header (FMSClient._get_headers (self w)) "X-Api-Key".
Proof.
  intros Hl.
  assert (Hself : self w1 = mk_client (base_url (self w)) (api_key (self w))
                              (server_name (self w)) (timeout (self w)) None None None).
  { destruct (logout_cases rt w) as [[_ H] | [_ [H | [e [H _]]]]];
      rewrite H in Hl; try discriminate; injection Hl as _ <-; reflexivity. }
  rewrite Hself. unfold FMSClient._get_headers. cbn [api_key _access_token set].
  destruct (api_key (self w)) as [k|]; cbn [set].
  - destruct (negb (String.eqb k "")); [split; reflexivity|].
    destruct (set (_access_token (self w))); split; reflexivity.
  - destruct (set (_access_token (self w))); split; reflexivity.
Qed.

Lemma logout_drops_bearer_keeps_key_witness :
  request_header (FMSClient._get_headers (self (snd (FMSClient.logout unavailable keyed))))
    "Authorization" = None
  /\ request_header (FMSClient._get_headers (self (snd (FMSClient.logout unavailable keyed))))
       "X-Api-Key" = Some "key-1".
Proof.
  exact (logout_drops_bearer_keeps_key unavailable keyed _ tt eq_refl).
Defined.

(** ** What deserialization reads *)

Ltac in_keys := simpl; repeat first [left; reflexivity | right].

Ltac same_reads H :=
  unfold date_or, enum_or_none, get, get_default, getitem;
  repeat match goal with
         | |- context [lookup ?d' ?k] =>
             lazymatch type of H with
             | agree_on _ _ d' => rewrite (H k) by in_keys
             end
         end.

(** X11: each [from_dict] reads only the keys of its model: two objects that hold
    the same at those keys deserialize alike, so a field the model does not
    know, or the order of the fields, changes nothing. *)
Theorem from_dict_reads_only_its_keys (parse : string -> result datetime) (now : datetime)
    (d d' : dict) :
  (agree_on LogEntry_keys d d' ->
   LogEntry.from_dict parse now (PDict d') = LogEntry.from_dict parse now (PDict d))
  /\ (agree_on Server_keys d d' ->
      Server.from_dict parse (PDict d') = Server.from_dict parse (PDict d))
  /\ (agree_on Job_keys d d' ->
      Job.from_dict parse (PDict d') = Job.from_dict parse (PDict d))
  /\ (agree_on Execution_keys d d' ->
      Execution.from_dict parse (PDict d') = Execution.from_dict parse (PDict d))
  /\ (agree_on Alert_keys d d' -> Alert.from_dict (PDict d') = Alert.from_dict (PDict d))
  /\ (agree_on AlertInstance_keys d d' ->
      AlertInstance.from_dict parse now (PDict d') =
      AlertInstance.from_dict parse now (PDict d))
  /\ (forall (A : Type) (f : pyval -> result A),
      agree_on PagedResult_keys d d' ->
      PagedResult.from_dict f (PDict d') = PagedResult.from_dict f (PDict d)).
Proof.
  split; [|split; [|split; [|split; [|split; [|split]]]]].
  - intros H. unfold_from_dict. same_reads H. reflexivity.
  - intros H. unfold_from_dict. same_reads H. reflexivity.
  - intros H. unfold_from_dict. same_reads H. reflexivity.
  - intros H. unfold_from_dict. same_reads H. reflexivity.
  - intros H. unfold_from_dict. same_reads H. reflexivity.
  - intros H. unfold_from_dict. same_reads H. reflexivity.
  - intros A f H. unfold PagedResult.from_dict. cbn [as_dict bind]. same_reads H.
    reflexivity.
Qed.

Lemma from_dict_reads_only_its_keys_witness :
  Job.from_dict sample_parse (PDict bare_job_extended) =
  Job.from_dict sample_parse (PDict bare_job).
Proof.
  apply (proj1 (proj2 (proj2 (from_dict_reads_only_its_keys sample_parse epoch
                                bare_job bare_job_extended)))).
  intros k Hk. simpl in Hk.
  repeat (destruct Hk as [<-|Hk]; [reflexivity|]). destruct Hk.
Defined.

Lemma of_value_no_member {E : Type} `{PyEnum E} (v : pyval) :
  (forall m : E, v <> PStr (value m)) -> of_value v = @Raise E ValueError.
Proof.
  intros Hv. destruct v as [| | |s| |]; try reflexivity.
  apply of_value_invalid. intros m Hm. apply (Hv m). rewrite Hm. reflexivity.
Qed.

Ltac strict_field E :=
  let d := fresh "d" in
  let v := fresh "v" in
  let Hl := fresh "Hl" in
  let Hv := fresh "Hv" in
  intros d v Hl Hv; unfold_from_dict; unfold get_default; rewrite Hl;
  rewrite (@of_value_no_member E _ v Hv); cbn [bind];
  repeat step_bind; reflexivity.

(** X12: the enumeration fields are strict, there is no fallback member: a value
    that is present and is no member's raw value (an unknown text, a number,
    null) fails the deserialization of the whole object.  The last status of
    a job is read only when it is truthy, and is strict then. *)
Theorem from_dict_enums_are_strict (parse : string -> result datetime) (now : datetime) :
  strict_enum_field LogLevel.t (LogEntry.from_dict parse now) "level"
  /\ strict_enum_field ServerStatus.t (Server.from_dict parse) "status"
  /\ strict_enum_field JobPriority.t (Job.from_dict parse) "priority"
  /\ strict_enum_field ExecutionStatus.t (Execution.from_dict parse) "status"
  /\ strict_enum_field TriggerType.t (Execution.from_dict parse) "triggerType"
  /\ strict_enum_field AlertType.t Alert.from_dict "alertType"
  /\ strict_enum_field AlertSeverity.t Alert.from_dict "severity"
  /\ strict_enum_field AlertSeverity.t (AlertInstance.from_dict parse now) "severity"
  /\ (forall d v, lookup d "lastExecutionStatus" = Some v -> truthy v = true ->
        (forall m : ExecutionStatus.t, v <> PStr (value m)) ->
        is_ok (Job.from_dict parse (PDict d)) = false).
Proof.
  split; [strict_field LogLevel.t|].
  split; [strict_field ServerStatus.t|].
  split; [strict_field JobPriority.t|].
  split; [strict_field ExecutionStatus.t|].
  split; [strict_field TriggerType.t|].
  split; [strict_field AlertType.t|].
  split; [strict_field AlertSeverity.t|].
  split; [strict_field AlertSeverity.t|].
  intros d v Hl Ht Hv. unfold_from_dict. unfold enum_or_none, get, getitem. rewrite Hl, Ht.
  cbn [bind]. rewrite (@of_value_no_member ExecutionStatus.t _ v Hv). cbn [bind].
  repeat step_bind; reflexivity.
Qed.

Lemma from_dict_enums_are_strict_witness :
  is_ok (Server.from_dict sample_parse
           (PDict [("serverName", PStr "srv-01"); ("status", PStr "Degraded")])) = false.
Proof.
  apply (proj1 (proj2 (from_dict_enums_are_strict sample_parse epoch))
           [("serverName", PStr "srv-01"); ("status", PStr "Degraded")]
           (PStr "Degraded") eq_refl).
  intros m; destruct m; discriminate.
Defined.

(** ** Transport failures reach the caller *)

Ltac run_op H :=
  unfold LogClient.trace, LogClient.debug, LogClient.info, LogClient.warning,
    LogClient.error, LogClient.critical;
  unfold LogClient.create, LogClient.get, LogClient.search, ServerClient.heartbeat,
    ServerClient.get, ServerClient.list, ServerClient.set_maintenance,
    JobClient.register, JobClient.get, JobClient.activate, JobClient.deactivate,
    JobClient.list, ExecutionClient.start, ExecutionClient.complete,
    ExecutionClient.cancel, ExecutionClient.get, ExecutionClient.get_running,
    AlertClient.get, AlertClient.list, AlertClient.get_active_instances,
    AlertClient.acknowledge, AlertClient.resolve, FMSClient.get_dashboard;
  unfold mbind, lift, ret, coerce, get_self, utcnow, FMSClient._request;
  cbn [self sent ticks fst snd];
  repeat match goal with
         | |- context [if ?b then _ else _] => destruct b
         end;
  rewrite ?H; cbn [fst snd].

(** X13: no sub-client catches anything: when the transport fails (no
    connection, a timeout, any other failure of the HTTP library), every
    operation ends in the error [_request] raises for it, unchanged.  The
    error of a timeout names the URL of the operation's own endpoint, under
    the client's [/api/] prefix. *)
Theorem transport_failures_propagate (rt : Runtime) (o : net_outcome) :
  (forall req, net rt req = o) ->
  forall w : world,
    let c := self w in
    (forall message m job_id execution_id category correlation_id exception properties,
        fails_with c "logs" o
          (fst (LogClient.create rt message (Member m) job_id execution_id category
                  correlation_id exception properties w))
        /\ fails_with c "logs" o
             (fst (LogClient.error rt message exception job_id execution_id category
                     correlation_id properties w)))
    /\ (forall log_id,
        fails_with c ("logs/" ++ log_id) o (fst (LogClient.get rt log_id w)))
    /\ (forall server_name job_id level start_date end_date page page_size,
        fails_with c "logs/search" o
          (fst (LogClient.search rt server_name job_id level start_date end_date page
                  page_size w)))
    /\ (forall m agent_version system_info,
        fails_with c "servers/heartbeat" o
          (fst (ServerClient.heartbeat rt (Member m) agent_version system_info w)))
    /\ (forall server_name enable,
        fails_with c ("servers/" ++ name_or server_name c) o
          (fst (ServerClient.get rt server_name w))
        /\ fails_with c ("servers/" ++ name_or server_name c ++ "/maintenance") o
             (fst (ServerClient.set_maintenance rt server_name enable w)))
    /\ fails_with c "servers" o (fst (ServerClient.list rt w))
    /\ (forall job_id display_name description schedule m timeout_minutes tags,
        fails_with c "jobs/register" o
          (fst (JobClient.register rt job_id display_name description schedule (Member m)
                  timeout_minutes tags w)))
    /\ (forall job_id,
        fails_with c ("jobs/" ++ job_id) o (fst (JobClient.get rt job_id w))
        /\ fails_with c ("jobs/" ++ job_id ++ "/activate") o
             (fst (JobClient.activate rt job_id w))
        /\ fails_with c ("jobs/" ++ job_id ++ "/deactivate") o
             (fst (JobClient.deactivate rt job_id w)))
    /\ fails_with c "jobs" o (fst (JobClient.list rt None w))
    /\ fails_with c "jobs" o (fst (JobClient.list rt (Some "") w))
    /\ (forall name, name <> "" ->
        fails_with c ("jobs/server/" ++ name) o (fst (JobClient.list rt (Some name) w)))
    /\ (forall job_id m triggered_by parameters,
        fails_with c "executions" o
          (fst (ExecutionClient.start rt job_id (Member m) triggered_by parameters w)))
    /\ (forall execution_id m output_message error_message reason,
        fails_with c ("executions/" ++ execution_id ++ "/complete") o
          (fst (ExecutionClient.complete rt execution_id (Member m) output_message
                  error_message w))
        /\ fails_with c ("executions/" ++ execution_id ++ "/cancel") o
             (fst (ExecutionClient.cancel rt execution_id reason w))
        /\ fails_with c ("executions/" ++ execution_id) o
             (fst (ExecutionClient.get rt execution_id w)))
    /\ fails_with c "executions/running" o (fst (ExecutionClient.get_running rt w))
    /\ (forall alert_id notes,
        fails_with c ("alerts/" ++ alert_id) o (fst (AlertClient.get rt alert_id w))
        /\ fails_with c ("alerts/instances/" ++ alert_id ++ "/acknowledge") o
             (fst (AlertClient.acknowledge rt alert_id notes w))
        /\ fails_with c ("alerts/instances/" ++ alert_id ++ "/resolve") o
             (fst (AlertClient.resolve rt alert_id notes w)))
    /\ fails_with c "alerts" o (fst (AlertClient.list rt w))
    /\ fails_with c "alerts/instances/active" o (fst (AlertClient.get_active_instances rt w))
    /\ fails_with c "dashboard" o (fst (FMSClient.get_dashboard rt w)).
Proof.
  intros Hnet w c. subst c.
  repeat match goal with |- _ /\ _ => split end;
    intros; repeat match goal with |- _ /\ _ => split end;
    try match goal with
        | Hn : ?name <> "" |- _ =>
            unfold JobClient.list, set; apply String.eqb_neq in Hn; rewrite Hn; cbn [negb]
        end;
    unfold JobClient.list; cbn [set String.eqb negb];
    run_op Hnet; destruct o; cbn [fails_with fst]; try reflexivity; exact I.
Qed.

Lemma transport_failures_propagate_witness :
  fst (JobClient.get stalled "JOB-001" logged_in) =
  Raise (FMS (mk_fms_error TimeoutError
                (PStr "Request to https://fms.example.com/api/jobs/JOB-001 timed out")
                None PNone NoExtra)).
Proof.
  exact (proj1 (proj1 (proj2 (proj2 (proj2 (proj2 (proj2 (proj2 (proj2
           (transport_failures_propagate stalled TimedOut
              (fun _ => eq_refl) logged_in)))))))) "JOB-001")).
Defined.

(** ** What the operations return *)

Lemma map_st_in_turn {A : Type} (rt : Runtime) (calls : pyval -> bool)
    (f : datetime -> pyval -> result A) (l : list pyval) (w : world) :
  fst (map_st (with_clock rt calls f) l w) = in_turn rt calls f (ticks w) l.
Proof.
  revert w. induction l as [|x r IH]; intros w; [reflexivity|].
  cbn [map_st in_turn]. unfold with_clock at 1.
  destruct (f (clock rt (ticks w)) x) as [y|e]; [|reflexivity]. cbn [bind].
  specialize (IH (if calls x then mk_world (self w) (sent w) (S (ticks w)) else w)).
  replace (ticks (if calls x then mk_world (self w) (sent w) (S (ticks w)) else w))
    with (if calls x then S (ticks w) else ticks w) in IH
    by (destruct (calls x); reflexivity).
  rewrite <- IH.
  destruct (map_st (with_clock rt calls f) r
              (if calls x then mk_world (self w) (sent w) (S (ticks w)) else w))
    as [[ys|e] w2]; reflexivity.
Qed.

Lemma each_st_in_turn {A : Type} (rt : Runtime) (calls : pyval -> bool)
    (f : datetime -> pyval -> result A) (v : pyval) (w : world) :
  fst (each_st (with_clock rt calls f) v w) =
  (its <- iterate v ;; in_turn rt calls f (ticks w) its).
Proof.
  unfold each_st. destruct (iterate v) as [its|e]; [|reflexivity].
  cbn [bind]. apply map_st_in_turn.
Qed.

Lemma from_dict_st_in_turn {A : Type} (rt : Runtime) (calls : pyval -> bool)
    (f : datetime -> pyval -> result A) (v : pyval) (w : world) :
  fst (PagedResult.from_dict_st (with_clock rt calls f) v w) =
  page_of (in_turn rt calls f (ticks w)) v.
Proof.
  unfold PagedResult.from_dict_st, page_of.
  destruct (as_dict v) as [d|e]; [|reflexivity]. cbn [bind].
  destruct (iterate (get_default d "items" (PList []))) as [its|e]; [|reflexivity].
  cbn [bind]. rewrite <- (map_st_in_turn rt calls f its w).
  destruct (map_st (with_clock rt calls f) its w) as [[ys|e] w2]; reflexivity.
Qed.

(** The page of [page_of] is that of [PagedResult.from_dict] when the items
    are deserialized independently of one another. *)
Lemma page_of_map_result {A : Type} (f : pyval -> result A) (v : pyval) :
  page_of (map_result f) v = PagedResult.from_dict f v.
Proof. reflexivity. Qed.

(** When no element reads the clock, deserializing in turn is the plain
    comprehension. *)
Lemma in_turn_no_clock {A : Type} (rt : Runtime) (calls : pyval -> bool)
    (f : datetime -> pyval -> result A) (n : nat) (l : list pyval) :
  (forall x, In x l -> calls x = false) ->
  in_turn rt calls f n l = map_result (f (clock rt n)) l.
Proof.
  induction l as [|x r IH]; intros Hc; [reflexivity|].
  cbn [in_turn map_result]. rewrite (Hc x (or_introl eq_refl)).
  rewrite IH; [reflexivity|]. intros y Hy. apply Hc. right. exact Hy.
Qed.

(** X14: when the service answers and the response handler returns the
    payload [v], an operation that yields a record returns the
    deserialization of [v] by its model, one that yields a list deserializes
    the elements of [v] in order, and one that yields nothing returns
    whatever [v] is.  A log entry or alert instance that lacks its timestamp
    takes the reading of the clock at its own deserialization: [create] has
    read the clock once before, for the timestamp it sends, and the items of
    a page or list read it one after the other. *)
Theorem operations_return_the_payload (rt : Runtime) (resp : Response.t) (v : pyval) :
  (forall req, net rt req = Responded resp) ->
  FMSClient._handle_response resp = Ok v ->
  forall w : world,
    (forall message m job_id execution_id category correlation_id exception properties,
        fst (LogClient.create rt message (Member m) job_id execution_id category
               correlation_id exception properties w)
        = LogEntry.from_dict (parse_text rt) (clock rt (S (ticks w))) v)
    /\ (forall log_id,
        fst (LogClient.get rt log_id w)
        = LogEntry.from_dict (parse_text rt) (clock rt (ticks w)) v)
    /\ (forall server_name job_id level start_date end_date page page_size,
        fst (LogClient.search rt server_name job_id level start_date end_date page
               page_size w)
        = page_of (in_turn rt LogEntry.calls_utcnow (LogEntry.from_dict (parse_text rt))
                     (ticks w)) v)
    /\ (forall m agent_version system_info,
        fst (ServerClient.heartbeat rt (Member m) agent_version system_info w) = Ok tt)
    /\ (forall server_name enable,
        fst (ServerClient.get rt server_name w) = Server.from_dict (parse_text rt) v
        /\ fst (ServerClient.set_maintenance rt server_name enable w) = Ok tt)
    /\ fst (ServerClient.list rt w) = each (Server.from_dict (parse_text rt)) v
    /\ (forall job_id display_name description schedule m timeout_minutes tags,
        fst (JobClient.register rt job_id display_name description schedule (Member m)
               timeout_minutes tags w)
        = Job.from_dict (parse_text rt) v)
    /\ (forall job_id,
        fst (JobClient.get rt job_id w) = Job.from_dict (parse_text rt) v
        /\ fst (JobClient.activate rt job_id w) = Ok tt
        /\ fst (JobClient.deactivate rt job_id w) = Ok tt)
    /\ (forall server_name,
        fst (JobClient.list rt server_name w) = each (Job.from_dict (parse_text rt)) v)
    /\ (forall job_id m triggered_by parameters,
        fst (ExecutionClient.start rt job_id (Member m) triggered_by parameters w)
        = Execution.from_dict (parse_text rt) v)
    /\ (forall execution_id m output_message error_message reason,
        fst (ExecutionClient.complete rt execution_id (Member m) output_message
               error_message w)
        = Execution.from_dict (parse_text rt) v
        /\ fst (ExecutionClient.cancel rt execution_id reason w) = Ok tt
        /\ fst (ExecutionClient.get rt execution_id w)
           = Execution.from_dict (parse_text rt) v)
    /\ fst (ExecutionClient.get_running rt w) = each (Execution.from_dict (parse_text rt)) v
    /\ (forall alert_id notes,
        fst (AlertClient.get rt alert_id w) = Alert.from_dict v
        /\ fst (AlertClient.acknowledge rt alert_id notes w) = Ok tt
        /\ fst (AlertClient.resolve rt alert_id notes w) = Ok tt)
    /\ fst (AlertClient.list rt w) = each Alert.from_dict v
    /\ fst (AlertClient.get_active_instances rt w)
       = (its <- iterate v ;;
          in_turn rt AlertInstance.calls_utcnow (AlertInstance.from_dict (parse_text rt))
            (ticks w) its)
    /\ fst (FMSClient.get_dashboard rt w) = Ok v.
Proof.
  intros Hnet Hv w.
  repeat match goal with |- _ /\ _ => split end;
    intros; repeat match goal with |- _ /\ _ => split end;
    run_op Hnet; rewrite ?Hv;
    rewrite ?from_dict_st_in_turn, ?each_st_in_turn; reflexivity.
Qed.

Lemma operations_return_the_payload_witness :
  fst (JobClient.get one_job "JOB-001" logged_in) =
  Ok (Job.mk (PStr "JOB-001") (PStr "Nightly import") (PStr "srv-01")
        PNone PNone JobPriority.NORMAL (PBool true) PNone None None (PList [])).
Proof.
  exact (proj1 (proj1 (proj2 (proj2 (proj2 (proj2 (proj2 (proj2 (proj2
           (operations_return_the_payload one_job
              (Response.mk 200 "{...}" (Decoded (PDict bare_job)) []) (PDict bare_job)
              (fun _ => eq_refl) eq_refl logged_in)))))))) "JOB-001")).
Defined.

(** The entries of a page that lack a timestamp get successive readings of
    the clock; an entry that has one does not read it. *)
Example search_reads_the_clock_per_entry :
  option_map (fun p => map LogEntry.timestamp (PagedResult.items p))
    (match fst (LogClient.search three_entries None None None None None 1 20 logged_in) with
     | Ok p => Some p
     | Raise _ => None
     end)
  = Some [counting 0; mk_datetime 2024 3 1 12 0 0 0 (Some 0%Z); counting 1]
  /\ ticks (snd (LogClient.search three_entries None None None None None 1 20 logged_in)) = 2%nat.
Proof. split; reflexivity. Qed.

(** X15: when the service answers without a payload (a 204, or a 200 whose body is
    empty, unparsable or [null]), the operations that yield nothing return;
    those that yield a record raise [AttributeError] and those that yield a
    list raise [TypeError]: neither returns [None], and neither raises an
    error of the taxonomy. *)
Theorem operations_on_an_empty_answer (rt : Runtime) (resp : Response.t) :
  (forall req, net rt req = Responded resp) ->
  FMSClient._handle_response resp = Ok PNone ->
  forall w : world,
    (forall message m job_id execution_id category correlation_id exception properties,
        fst (LogClient.create rt message (Member m) job_id execution_id category
               correlation_id exception properties w) = Raise AttributeError)
    /\ (forall log_id, fst (LogClient.get rt log_id w) = Raise AttributeError)
    /\ (forall server_name job_id level start_date end_date page page_size,
        fst (LogClient.search rt server_name job_id level start_date end_date page
               page_size w) = Raise AttributeError)
    /\ (forall server_name, fst (ServerClient.get rt server_name w) = Raise AttributeError)
    /\ (forall job_id display_name description schedule m timeout_minutes tags,
        fst (JobClient.register rt job_id display_name description schedule (Member m)
               timeout_minutes tags w) = Raise AttributeError)
    /\ (forall job_id, fst (JobClient.get rt job_id w) = Raise AttributeError)
    /\ (forall job_id m triggered_by parameters,
        fst (ExecutionClient.start rt job_id (Member m) triggered_by parameters w)
        = Raise AttributeError)
    /\ (forall execution_id m output_message error_message,
        fst (ExecutionClient.complete rt execution_id (Member m) output_message
               error_message w) = Raise AttributeError
        /\ fst (ExecutionClient.get rt execution_id w) = Raise AttributeError)
    /\ (forall alert_id, fst (AlertClient.get rt alert_id w) = Raise AttributeError)
    /\ fst (ServerClient.list rt w) = Raise TypeError
    /\ (forall server_name, fst (JobClient.list rt server_name w) = Raise TypeError)
    /\ fst (ExecutionClient.get_running rt w) = Raise TypeError
    /\ fst (AlertClient.list rt w) = Raise TypeError
    /\ fst (AlertClient.get_active_instances rt w) = Raise TypeError
    /\ (forall m agent_version system_info server_name enable job_id reason notes,
        fst (ServerClient.heartbeat rt (Member m) agent_version system_info w) = Ok tt
        /\ fst (ServerClient.set_maintenance rt server_name enable w) = Ok tt
        /\ fst (JobClient.activate rt job_id w) = Ok tt
        /\ fst (JobClient.deactivate rt job_id w) = Ok tt
        /\ fst (ExecutionClient.cancel rt job_id reason w) = Ok tt
        /\ fst (AlertClient.acknowledge rt job_id notes w) = Ok tt
        /\ fst (AlertClient.resolve rt job_id notes w) = Ok tt).
Proof.
  intros Hnet Hv w.
  repeat match goal with |- _ /\ _ => split end;
    intros; repeat match goal with |- _ /\ _ => split end;
    run_op Hnet; rewrite ?Hv;
    rewrite ?from_dict_st_in_turn, ?each_st_in_turn; reflexivity.
Qed.

Lemma operations_on_an_empty_answer_witness :
  fst (JobClient.get no_content "JOB-001" logged_in) = Raise AttributeError
  /\ fst (JobClient.list no_content None logged_in) = Raise TypeError.
Proof.
  pose proof (operations_on_an_empty_answer no_content (Response.mk 204 "" NotJson [])
                (fun _ => eq_refl) eq_refl logged_in) as H.
  split.
  - exact (proj1 (proj2 (proj2 (proj2 (proj2 (proj2 H))))) "JOB-001").
  - exact (proj1 (proj2 (proj2 (proj2 (proj2 (proj2 (proj2 (proj2 (proj2 (proj2
             (proj2 H)))))))))) None).
Defined.

(** ** The search request *)

(** X16: [search] makes one [GET] to [logs/search] without a body.  Its query has
    the filters that were given, in the order of the signature, then [page]
    and [pageSize], which are always there; a filter that was not given does
    not appear, while one given as the empty string does. *)
Theorem search_parameters (rt : Runtime) (server_name job_id : option string)
    (level : option (enum_arg LogLevel.t)) (start_date end_date : option datetime)
    (page page_size : Z) (w : world) :
  exists req : Request.t,
    sent (snd (LogClient.search rt server_name job_id level start_date end_date page
                 page_size w)) = (sent w ++ [req])%list
    /\ Request.method req = "GET"
    /\ Request.url req = base_url (self w) ++ "/api/logs/search"
    /\ Request.json req = PNone
    /\ Request.params req =
       Some (opt_param "serverName" (of_opt_str server_name)
             ++ opt_param "jobId" (of_opt_str job_id)
             ++ opt_param "level" (LogClient.level_param level)
             ++ opt_param "startDate" (LogClient.of_opt_date rt start_date)
             ++ opt_param "endDate" (LogClient.of_opt_date rt end_date)
             ++ [("page", PInt page); ("pageSize", PInt page_size)])%list.
Proof.
  eexists. split.
  - unfold LogClient.search, mbind, FMSClient._request.
    match goal with
    | |- context [net rt ?r] => destruct (net rt r) as [resp| | |]
    end; cbn [snd sent]; try reflexivity.
    destruct (FMSClient._handle_response resp) as [v|e]; [|reflexivity].
    match goal with
    | |- sent (snd (PagedResult.from_dict_st ?f v ?w1)) = _ =>
        rewrite (proj2 (keeps_from_dict_st f v (keeps_with_clock _ _ _) w1))
    end.
    reflexivity.
  - repeat split.
    destruct server_name, job_id, level as [[m|raw]|], start_date, end_date; reflexivity.
Qed.

(** ** Empty names *)

Lemma set_given (name : string) : name <> "" -> set (Some name) = true.
Proof. intros Hn. unfold set. apply String.eqb_neq in Hn. rewrite Hn. reflexivity. Qed.

Lemma name_or_given (name : string) (c : fms_client) :
  name <> "" -> name_or (Some name) c = name.
Proof. intros Hn. unfold name_or. rewrite (set_given name Hn). reflexivity. Qed.

Ltac one_request rt :=
  unfold mbind, lift, ret, coerce, get_self, FMSClient._request; cbn [self sent ticks];
  match goal with
  | |- context [net rt ?r] => destruct (net rt r)
  end;
  try match goal with
      | |- context [FMSClient._handle_response ?r] =>
          destruct (FMSClient._handle_response r)
      end;
  repeat eexists; cbn [snd sent]; reflexivity.

(** X17: a server name given as the empty string counts as not given.  Without
    a name, [get] and [set_maintenance] address the client's own server, at
    [servers/<own name>] and [servers/<own name>/maintenance], and [list]
    asks for the jobs of all servers, at [jobs]; a name that is not empty is
    used as given, [list] then asking at [jobs/server/<name>].
    [set_maintenance] posts to enable and deletes to disable.  Likewise an
    empty [triggered_by] is replaced like a missing one, by the [USER] of the
    environment or by [unknown], so the body of [start] never carries a
    null or the given empty text there; one that is not empty is sent as
    given. *)
Theorem empty_names_count_as_missing (rt : Runtime) (w : world) :
  let own := server_name (self w) in
  let user := match environ_USER rt with Some u => u | None => "unknown" end in
  (ServerClient.get rt (Some "") w = ServerClient.get rt None w
   /\ (forall enable, ServerClient.set_maintenance rt (Some "") enable w =
                      ServerClient.set_maintenance rt None enable w)
   /\ JobClient.list rt (Some "") w = JobClient.list rt None w
   /\ (forall job_id trigger_type parameters,
         ExecutionClient.start rt job_id trigger_type (Some "") parameters w =
         ExecutionClient.start rt job_id trigger_type None parameters w))
  /\ (requests (ServerClient.get rt None) w "GET" ("servers/" ++ own)
      /\ (forall enable,
            requests (ServerClient.set_maintenance rt None enable) w
              (if enable then "POST" else "DELETE") ("servers/" ++ own ++ "/maintenance"))
      /\ requests (JobClient.list rt None) w "GET" "jobs"
      /\ (forall job_id m parameters,
            posts (ExecutionClient.start rt job_id (Member m) None parameters) w
              "triggeredBy" (PStr user)))
  /\ (forall name, name <> "" ->
        requests (ServerClient.get rt (Some name)) w "GET" ("servers/" ++ name)
        /\ (forall enable,
              requests (ServerClient.set_maintenance rt (Some name) enable) w
                (if enable then "POST" else "DELETE") ("servers/" ++ name ++ "/maintenance"))
        /\ requests (JobClient.list rt (Some name)) w "GET" ("jobs/server/" ++ name)
        /\ (forall job_id m parameters,
              posts (ExecutionClient.start rt job_id (Member m) (Some name) parameters) w
                "triggeredBy" (PStr name))).
Proof.
  intros own user. subst own user.
  split; [repeat split|]. split.
  - split; [|split; [|split]]; intros;
      unfold requests, posts, ServerClient.get, ServerClient.set_maintenance,
        JobClient.list, ExecutionClient.start;
      cbn [set name_or]; one_request rt.
  - intros name Hn. split; [|split; [|split]]; intros;
      unfold requests, posts, ServerClient.get, ServerClient.set_maintenance,
        JobClient.list, ExecutionClient.start;
      unfold mbind, get_self; cbn [self];
      rewrite ?(name_or_given name _ Hn), ?(set_given name Hn);
      one_request rt.
Qed.

Lemma empty_names_count_as_missing_witness :
  requests (JobClient.list one_job (Some "srv-02")) logged_in "GET" "jobs/server/srv-02".
Proof.
  refine (proj1 (proj2 (proj2 (proj2 (proj2 (empty_names_count_as_missing one_job logged_in))
                                 "srv-02" _)))).
  discriminate.
Defined.

Example empty_server_name_is_the_own_server :
  map Request.url (sent (snd (ServerClient.set_maintenance one_job (Some "") false logged_in)))
  = ["https://fms.example.com/api/servers/srv-01/maintenance"]
  /\ map Request.method
       (sent (snd (ServerClient.set_maintenance one_job (Some "") false logged_in)))
     = ["DELETE"]
  /\ map Request.url (sent (snd (JobClient.list one_job (Some "srv-02") logged_in)))
     = ["https://fms.example.com/api/jobs/server/srv-02"].
Proof. repeat split. Qed.

(** ** How errors read *)

(** X18: an error raised for a response reads [[status] message], for every
    status the protocol has (the one status that would read differently is
    0); an error raised for a failure of the transport has no status and
    reads as its message alone.  Neither rendering fails. *)
Theorem errors_render (fmt : pyval -> string) :
  (forall resp f,
      FMSClient._handle_response resp = Raise (FMS f) ->
      Response.status_code resp <> 0%Z ->
      __str__ fmt f =
      Ok ("[" ++ str_of_int (Response.status_code resp) ++ "] "
              ++ shown_message fmt (message f)))
  /\ (forall rt method endpoint params data w f,
      fst (FMSClient._request rt method endpoint params data w) = Raise (FMS f) ->
      status_code f = None ->
      exists m, message f = PStr m /\ __str__ fmt f = Ok m).
Proof.
  split.
  - intros resp f Hr Hsc.
    destruct (handle_response_raises resp (FMS f) Hr)
      as [[H _] | [_ [H|[H|[f' [H [Hs _]]]]]]];
      try discriminate.
    injection H as <-. unfold __str__, shown_message. rewrite Hs. cbn [status_set].
    apply Z.eqb_neq in Hsc. rewrite Hsc. cbn [negb]. destruct (message f); reflexivity.
  - intros rt method endpoint params data w f Hr Hnone.
    unfold FMSClient._request in Hr.
    destruct (net rt _) as [resp|e| |e]; cbn [fst] in Hr.
    + destruct (handle_response_raises resp (FMS f) Hr)
      as [[H _] | [_ [H|[H|[f' [H [Hs _]]]]]]];
        try discriminate.
      injection H as <-. rewrite Hs in Hnone. discriminate.
    + injection Hr as <-. eexists. split; reflexivity.
    + injection Hr as <-. eexists. split; reflexivity.
    + injection Hr as <-. eexists. split; reflexivity.
Qed.

Lemma errors_render_witness :
  __str__ (fun _ => "?")
    (mk_fms_error NotFoundError (PStr "Job not found") (Some 404%Z)
       (PDict [("detail", PStr "Job not found")]) NoExtra)
  = Ok "[404] Job not found".
Proof.
  refine (proj1 (errors_render (fun _ => "?")) job_not_found _ eq_refl _).
  discriminate.
Defined.

(** ** Pages without items *)

(** X19: only a missing ["items"] key stands for an empty page.  An ["items"] that
    is present but null, a boolean or a number cannot be iterated and raises
    [TypeError], whatever the item type; and a payload that is not an object
    raises [AttributeError]. *)
Theorem paged_result_needs_items {A : Type} (item_from_dict : pyval -> result A) :
  (forall d v, lookup d "items" = Some v ->
               (v = PNone \/ (exists b, v = PBool b) \/ (exists z, v = PInt z)) ->
               PagedResult.from_dict item_from_dict (PDict d) = Raise TypeError)
  /\ (forall v, (forall d, v <> PDict d) ->
                PagedResult.from_dict item_from_dict v = Raise AttributeError).
Proof.
  split.
  - intros d v Hl Hv. unfold PagedResult.from_dict, get_default. cbn [as_dict bind].
    rewrite Hl. destruct Hv as [-> | [[b ->] | [z ->]]]; reflexivity.
  - intros v Hv. destruct v; try reflexivity. exfalso. exact (Hv d eq_refl).
Qed.

Lemma paged_result_needs_items_witness :
  PagedResult.from_dict Alert.from_dict (PDict [("items", PNone); ("page", PInt 1)])
  = Raise TypeError.
Proof.
  exact (proj1 (paged_result_needs_items Alert.from_dict)
           [("items", PNone); ("page", PInt 1)] PNone eq_refl (or_introl eq_refl)).
Defined.

(** ** On whose behalf requests are made *)

Section OnBehalf.
Context {A B : Type}.

Lemma on_behalf_quiet (m : M A) :
  (forall w, snd (m w) = w \/ snd (m w) = mk_world (self w) (sent w) (S (ticks w))) ->
  on_behalf m.
Proof.
  intros Hm w. destruct (Hm w) as [-> | ->]; (split; [reflexivity|]);
    exists []; cbn [sent]; rewrite app_nil_r; (split; [reflexivity|constructor]).
Qed.

Lemma on_behalf_bind (m : M A) (f : A -> M B) :
  on_behalf m -> (forall a, on_behalf (f a)) -> on_behalf (mbind m f).
Proof.
  intros Hm Hf w. unfold mbind. destruct (Hm w) as [Hs [l [Hl Hall]]].
  destruct (m w) as [[a|e] w1]; cbn [snd] in *.
  - destruct (Hf a w1) as [Hs' [l' [Hl' Hall']]]. split; [congruence|].
    exists (l ++ l')%list. rewrite Hl', Hl, app_assoc. split; [reflexivity|].
    apply Forall_app. split; [exact Hall|]. rewrite <- Hs. exact Hall'.
  - split; [exact Hs|]. exists l. split; [exact Hl|exact Hall].
Qed.
End OnBehalf.

Lemma on_behalf_request (rt : Runtime) (method endpoint : string) (params : option dict)
    (data : pyval) : on_behalf (FMSClient._request rt method endpoint params data).
Proof.
  intros w. rewrite request_state. cbn [self sent]. split; [reflexivity|].
  eexists. split; [reflexivity|]. constructor; [|constructor].
  repeat split. exists endpoint. reflexivity.
Qed.

Lemma on_behalf_keeps {A : Type} (m : M A) : keeps m -> on_behalf m.
Proof.
  intros Hm w. destruct (Hm w) as [Hs Hn]. split; [exact Hs|].
  exists []. rewrite app_nil_r. split; [exact Hn|constructor].
Qed.

Ltac on_behalf_steps :=
  repeat first
    [ apply on_behalf_request
    | apply on_behalf_keeps; keeps_clock
    | apply on_behalf_quiet; intros ?; first [left; reflexivity | right; reflexivity]
    | apply on_behalf_bind; [|intros ?] ].

(** X6: every request of every operation is made on behalf of the client as it
    is: to a path under its [/api/] prefix, with its timeout, and with the
    headers [_get_headers] computes, so with its API key or bearer token.  No
    operation sends a request without them, and none alters the client. *)
Theorem requests_carry_the_credentials (rt : Runtime) :
  every_operation rt (@on_behalf).
Proof.
  unfold every_operation.
  repeat match goal with |- _ /\ _ => split end;
    intros; repeat match goal with |- _ /\ _ => split end;
    unfold LogClient.trace, LogClient.debug, LogClient.info, LogClient.warning,
      LogClient.error, LogClient.critical;
    unfold LogClient.create, LogClient.get, LogClient.search, ServerClient.heartbeat,
      ServerClient.get, ServerClient.list, ServerClient.set_maintenance,
      JobClient.register, JobClient.get, JobClient.activate, JobClient.deactivate,
      JobClient.list, ExecutionClient.start, ExecutionClient.complete,
      ExecutionClient.cancel, ExecutionClient.get, ExecutionClient.get_running,
      AlertClient.get, AlertClient.list, AlertClient.get_active_instances,
      AlertClient.acknowledge, AlertClient.resolve, FMSClient.get_dashboard;
    repeat match goal with
           | |- context [if ?b then _ else _] => destruct b
           end;
    on_behalf_steps.
Qed.
